(** * Ozlo firmware downloader: index parser and artifact fetcher

    A shallow embedding of [firmware_parser.py], [firmware_downloader.py]
    and [main.py], and the properties of the specification proved (or
    refuted) on it.

    Conventions of the embedding.
    - Python [str] is [string] (a byte string; text is taken as ASCII or as
      its UTF-8 bytes), Python [bytes] is [list byte], Python [int] is [Z].
    - A Python call either returns a value or raises: [result A].  Code
      that performs I/O runs in the monad [M], which threads the [world]
      (the files on disk and the trace of observable events) and keeps the
      effects made before an exception was raised.
    - Paths follow [posixpath].
    - What lies outside the repository (the XML parser, the digest
      function, the UTF-8 decoder, the HTTP server) is a variable of the
      section [Env]. *)

From Stdlib Require Import ZArith Ascii String List Bool Lia Strings.Byte.
From stdpp Require Import base option list strings gmap.

Open Scope string_scope.
Open Scope list_scope.
Import ListNotations.

(** * Python values and exceptions *)

(** The exception classes the code can meet.  All derive from [Exception]. *)
Inductive exn : Type :=
  | URLError (reason : string)   (* urllib.error.URLError, HTTPError included *)
  | ValueError
  | UnicodeDecodeError           (* a subclass of ValueError *)
  | FileNotFoundError
  | PermissionError
  | TimeoutError                 (* socket timeout, connection reset while reading *)
  | ParseError (msg : string).   (* xml.etree.ElementTree.ParseError *)

Definition is_ValueError (e : exn) : bool :=
  match e with ValueError | UnicodeDecodeError => true | _ => false end.

Definition is_URLError (e : exn) : bool :=
  match e with URLError _ => true | _ => false end.

Inductive result (A : Type) : Type :=
  | Ok (a : A)
  | Raise (e : exn).
Arguments Ok {A} a.
Arguments Raise {A} e.

Definition rbind {A B} (c : result A) (k : A -> result B) : result B :=
  match c with Ok a => k a | Raise e => Raise e end.

(** [try: c except p: h]: the handler runs when the raised exception is an
    instance of the class recognised by [p]. *)
Definition rcatch {A} (c : result A) (p : exn -> bool) (h : exn -> result A) : result A :=
  match c with
  | Ok a => Ok a
  | Raise e => if p e then h e else Raise e
  end.

Notation "'let+' x ':=' c 'in' k" := (rbind c (fun x => k))
  (at level 10, x name, c at level 100, k at level 200).


(** * Strings *)

Definition sep : ascii := "/"%char.

(** [s.startswith("/")] *)
Definition startswith_sep (s : string) : bool :=
  match s with
  | String c _ => Ascii.eqb c sep
  | EmptyString => false
  end.

(** [s.endswith("/")] *)
Fixpoint endswith_sep (s : string) : bool :=
  match s with
  | EmptyString => false
  | String c EmptyString => Ascii.eqb c sep
  | String _ rest => endswith_sep rest
  end.

(** [str.lower] on ASCII text. *)
Definition lower_ascii (c : ascii) : ascii :=
  let n := nat_of_ascii c in
  if (65 <=? n)%nat && (n <=? 90)%nat then ascii_of_nat (n + 32) else c.

Fixpoint lower (s : string) : string :=
  match s with
  | EmptyString => EmptyString
  | String c rest => String (lower_ascii c) (lower rest)
  end.

(** ** [int(s)] for a string argument, base 10

    Surrounding white space is stripped, one sign is allowed, and single
    underscores may separate digits.  Anything else raises [ValueError]. *)

Definition is_py_space (c : ascii) : bool :=
  let n := nat_of_ascii c in
  ((9 <=? n)%nat && (n <=? 13)%nat) || ((28 <=? n)%nat && (n <=? 32)%nat).

Definition digit_of (c : ascii) : option Z :=
  let n := nat_of_ascii c in
  if (48 <=? n)%nat && (n <=? 57)%nat then Some (Z.of_nat (n - 48)) else None.

Fixpoint lstrip (cs : list ascii) : list ascii :=
  match cs with
  | c :: rest => if is_py_space c then lstrip rest else cs
  | [] => []
  end.

Definition strip (cs : list ascii) : list ascii :=
  rev (lstrip (rev (lstrip cs))).

(** [digits acc prev_digit cs]: [cs] continues a numeral whose value so far
    is [acc]; [prev_digit] tells whether the previous character was a digit
    (an underscore is only legal between two digits). *)
Fixpoint digits (acc : Z) (prev_digit : bool) (cs : list ascii) : option Z :=
  match cs with
  | [] => if prev_digit then Some acc else None
  | c :: rest =>
      match digit_of c with
      | Some d => digits (10 * acc + d) true rest
      | None =>
          if Ascii.eqb c "_"%char && prev_digit
          then match rest with
               | c' :: _ => if digit_of c' is Some _ then digits acc false rest else None
               | [] => None
               end
          else None
      end
  end.

Definition py_int (s : string) : result Z :=
  let cs := strip (list_ascii_of_string s) in
  let '(negative, body) :=
    match cs with
    | c :: rest =>
        if Ascii.eqb c "-"%char then (true, rest)
        else if Ascii.eqb c "+"%char then (false, rest)
        else (false, cs)
    | [] => (false, cs)
    end in
  match digits 0 false body with
  | Some n => Ok (if negative then (- n)%Z else n)
  | None => Raise ValueError
  end.

(** * The data model ([firmware_parser.py], the dataclasses)

    Each dataclass is a record in a module of its name; [new] is the
    instance built by the constructor without arguments, and a field
    assignment [obj.f = v] is the setter [set_f v obj]. *)

Module Image.
Record t : Type := mk {
  filename : string;
  md5 : string;
  nxh_version : string;
  l_bud_version : string;
  r_bud_version : string;
  revision : string;
  build_id : string;
  length : Z;
  target : Z;
  subid : Z
}.
Definition new : t := mk "" "" "" "" "" "" "" 0 0 0.
Definition set_filename v (i : t) :=
  mk v (md5 i) (nxh_version i) (l_bud_version i) (r_bud_version i)
     (revision i) (build_id i) (length i) (target i) (subid i).
Definition set_md5 v (i : t) :=
  mk (filename i) v (nxh_version i) (l_bud_version i) (r_bud_version i)
     (revision i) (build_id i) (length i) (target i) (subid i).
Definition set_nxh_version v (i : t) :=
  mk (filename i) (md5 i) v (l_bud_version i) (r_bud_version i)
     (revision i) (build_id i) (length i) (target i) (subid i).
Definition set_l_bud_version v (i : t) :=
  mk (filename i) (md5 i) (nxh_version i) v (r_bud_version i)
     (revision i) (build_id i) (length i) (target i) (subid i).
Definition set_r_bud_version v (i : t) :=
  mk (filename i) (md5 i) (nxh_version i) (l_bud_version i) v
     (revision i) (build_id i) (length i) (target i) (subid i).
Definition set_revision v (i : t) :=
  mk (filename i) (md5 i) (nxh_version i) (l_bud_version i) (r_bud_version i)
     v (build_id i) (length i) (target i) (subid i).
Definition set_build_id v (i : t) :=
  mk (filename i) (md5 i) (nxh_version i) (l_bud_version i) (r_bud_version i)
     (revision i) v (length i) (target i) (subid i).
Definition set_length v (i : t) :=
  mk (filename i) (md5 i) (nxh_version i) (l_bud_version i) (r_bud_version i)
     (revision i) (build_id i) v (target i) (subid i).
Definition set_target v (i : t) :=
  mk (filename i) (md5 i) (nxh_version i) (l_bud_version i) (r_bud_version i)
     (revision i) (build_id i) (length i) v (subid i).
Definition set_subid v (i : t) :=
  mk (filename i) (md5 i) (nxh_version i) (l_bud_version i) (r_bud_version i)
     (revision i) (build_id i) (length i) (target i) v.
End Image.

Module Release.
Record t : Type := mk {
  channel : string;
  date : string;
  httphost : string;
  urlpath : string;
  revision : string;
  images : list Image.t
}.
Definition new : t := mk "" "" "" "" "" [].
Definition set_channel v (r : t) :=
  mk v (date r) (httphost r) (urlpath r) (revision r) (images r).
Definition set_date v (r : t) :=
  mk (channel r) v (httphost r) (urlpath r) (revision r) (images r).
Definition set_httphost v (r : t) :=
  mk (channel r) (date r) v (urlpath r) (revision r) (images r).
Definition set_urlpath v (r : t) :=
  mk (channel r) (date r) (httphost r) v (revision r) (images r).
Definition set_revision v (r : t) :=
  mk (channel r) (date r) (httphost r) (urlpath r) v (images r).
(** [release.images.append(image)] *)
Definition append_image (i : Image.t) (r : t) :=
  mk (channel r) (date r) (httphost r) (urlpath r) (revision r) (images r ++ [i]).
End Release.

Module Hardware.
Record t : Type := mk {
  revision : string;
  releases : list Release.t
}.
Definition new : t := mk "" [].
Definition set_revision v (h : t) := mk v (releases h).
Definition append_release (r : Release.t) (h : t) :=
  mk (revision h) (releases h ++ [r]).
End Hardware.

Module Device.
Record t : Type := mk {
  id : string;
  productname : string;
  hardware : list Hardware.t
}.
Definition new : t := mk "" "" [].
Definition set_id v (d : t) := mk v (productname d) (hardware d).
Definition set_productname v (d : t) := mk (id d) v (hardware d).
Definition append_hardware (h : Hardware.t) (d : t) :=
  mk (id d) (productname d) (hardware d ++ [h]).
End Device.

Module FirmwareIndex.
Record t : Type := mk {
  revision : string;
  devices : list Device.t
}.
Definition new : t := mk "" [].
Definition set_revision v (x : t) := mk v (devices x).
Definition append_device (d : Device.t) (x : t) :=
  mk (revision x) (devices x ++ [d]).
End FirmwareIndex.

(** * XML elements ([xml.etree.ElementTree.Element])

    An element has a tag, a dictionary of attributes and its child elements
    in document order.  Text and tail are not read by the parser. *)

#[local] Set Warnings "-register-all".
Inductive Element : Type :=
  mkElement { tag : string; attrib : gmap string string; children : list Element }.

(** [elem.get(key, default)] *)
Definition get (elem : Element) (key default : string) : string :=
  match attrib elem !! key with
  | Some v => v
  | None => default
  end.

(** A [for x in xs: body] loop over a state [S], in the [result] monad: an
    exception raised by one iteration leaves the loop. *)
Fixpoint for_each {X S} (xs : list X) (body : X -> S -> result S) (s : S) : result S :=
  match xs with
  | [] => Ok s
  | x :: rest => let+ s' := body x s in for_each rest body s'
  end.

(** * The parser ([FirmwareParser]) *)

(** [try: image.f = int(elem.get(KEY, "0")) except ValueError: image.f = 0] *)
Definition int_attribute (img_elem : Element) (key : string) : result Z :=
  rcatch (py_int (get img_elem key "0")) is_ValueError (fun _ => Ok 0%Z).

Definition _parse_image (img_elem : Element) : result Image.t :=
  let image := Image.new in
  let image := Image.set_filename (get img_elem "FILENAME" "") image in
  let image := Image.set_md5 (get img_elem "MD5" "") image in
  let image := Image.set_nxh_version (get img_elem "NXH_VERSION" "") image in
  let image := Image.set_l_bud_version (get img_elem "L_BUD_VERSION" "") image in
  let image := Image.set_r_bud_version (get img_elem "R_BUD_VERSION" "") image in
  let image := Image.set_revision (get img_elem "REVISION" "") image in
  let image := Image.set_build_id (get img_elem "BUILD_ID" "") image in
  let+ n := int_attribute img_elem "LENGTH" in
  let image := Image.set_length n image in
  let+ n := int_attribute img_elem "TARGET" in
  let image := Image.set_target n image in
  let+ n := int_attribute img_elem "SUBID" in
  let image := Image.set_subid n image in
  Ok image.

Definition _parse_release (rel_elem : Element) : result Release.t :=
  let release := Release.new in
  let release := Release.set_channel (get rel_elem "CHANNEL" "") release in
  let release := Release.set_date (get rel_elem "DATE" "") release in
  let release := Release.set_httphost (get rel_elem "HTTPHOST" "") release in
  let release := Release.set_urlpath (get rel_elem "URLPATH" "") release in
  let release := Release.set_revision (get rel_elem "REVISION" "") release in
  for_each (children rel_elem)
    (fun img_elem release =>
       if String.eqb (tag img_elem) "IMAGE"
       then let+ image := _parse_image img_elem in
            Ok (Release.append_image image release)
       else Ok release)
    release.

Definition _parse_hardware (hw_elem : Element) : result Hardware.t :=
  let hardware := Hardware.new in
  let hardware := Hardware.set_revision (get hw_elem "REVISION" "") hardware in
  for_each (children hw_elem)
    (fun rel_elem hardware =>
       if String.eqb (tag rel_elem) "RELEASE"
       then let+ release := _parse_release rel_elem in
            Ok (Hardware.append_release release hardware)
       else Ok hardware)
    hardware.

Definition _parse_device (device_elem : Element) : result Device.t :=
  let device := Device.new in
  let device := Device.set_id (get device_elem "ID" "") device in
  let device := Device.set_productname (get device_elem "PRODUCTNAME" "") device in
  for_each (children device_elem)
    (fun hw_elem device =>
       if String.eqb (tag hw_elem) "HARDWARE"
       then let+ hardware := _parse_hardware hw_elem in
            Ok (Device.append_hardware hardware device)
       else Ok device)
    device.

Definition _parse_root (root : Element) : result FirmwareIndex.t :=
  let index := FirmwareIndex.new in
  let index := FirmwareIndex.set_revision (get root "REVISION" "") index in
  for_each (children root)
    (fun device_elem index =>
       if String.eqb (tag device_elem) "DEVICE"
       then let+ device := _parse_device device_elem in
            Ok (FirmwareIndex.append_device device index)
       else Ok index)
    index.

(** * Paths ([posixpath]) *)

(** One step of [os.path.join]: [path] joined with the next component [b]. *)
Definition join2 (path b : string) : string :=
  if startswith_sep b then b
  else if String.eqb path "" || endswith_sep path then path ++ b
  else path ++ "/" ++ b.

(** [os.path.join(a, *p)] *)
Definition os_path_join (a : string) (p : list string) : string :=
  fold_left join2 p a.

Fixpoint drop_while {X} (f : X -> bool) (l : list X) : list X :=
  match l with
  | x :: rest => if f x then drop_while f rest else l
  | [] => []
  end.

(** [os.path.dirname(p)]: everything up to the last separator, without
    trailing separators unless it consists of separators only. *)
Definition os_path_dirname (p : string) : string :=
  let is_sep := fun c => Ascii.eqb c sep in
  let rhead := drop_while (fun c => negb (is_sep c)) (rev (list_ascii_of_string p)) in
  let rhead :=
    if forallb is_sep rhead then rhead else drop_while is_sep rhead in
  string_of_list_ascii (rev rhead).

(** * The world: files and observable events *)

(** A regular file: its bytes, and whether this process may read it.  The
    files on disk are a finite map from paths to regular files.  The
    directory tree and the permissions on directories are not modelled:
    creating a directory, opening a file for writing and removing a file
    that exists succeed; reading fails on a missing or unreadable file and
    removing fails on a missing one. *)
Record file : Type := mkFile { content : list byte; readable : bool }.

(** One constructor per [print] statement of the program, with the values
    it interpolates. *)
Inductive message : Type :=
  | MsgBanner (index_url output_dir : string)
  | MsgDownloadingIndex
  | MsgIndexDownloadFailed
  | MsgParsingIndex
  | MsgNoDevices
  | MsgFound (n : nat)
  | MsgCouldNotParse
  | MsgDetails (e : exn)
  | MsgStarting (index_revision : string)
  | MsgDevice (productname id : string)
  | MsgHardware (revision : string)
  | MsgRelease (channel date revision : string)
  | MsgCompleted
  | MsgChecking (filename : string)
  | MsgAlreadyDownloaded
  | MsgInvalidRedownloading
  | MsgDownloading (filename : string)
  | MsgDownloadedSuccessfully
  | MsgMD5Passed
  | MsgMD5Failed
  | MsgDownloadFailed
  | MsgProgress (downloaded total : Z)
  | MsgNewline
  | MsgURLError (e : exn)
  | MsgDownloadError (e : exn)
  | MsgMD5Error (file_path : string) (e : exn)
  | MsgDirectoryError (path : string) (e : exn)
  | MsgExpectedMD5 (expected : string)
  | MsgCalculated (calculated : string).

Inductive event : Type :=
  | Print (m : message)
  | Mkdir (path : string)          (* Path(path).mkdir(parents=True, exist_ok=True) *)
  | Remove (path : string)         (* os.remove(path) *)
  | Request (url : string).        (* urllib.request.urlopen(req, timeout=300) *)

Record world : Type := mkWorld {
  fs : gmap string file;
  trace : list event               (* oldest event first *)
}.

(** What the server does with one GET request: [urlopen] raises, or a
    response arrives whose body is read in chunks.  [chunks] are the
    successive results of [response.read(65536)] (an empty chunk is the end
    of the body); when they are used up the next read raises [abort], or
    returns [b""] if there is none. *)
Record response : Type := mkResponse {
  content_length : option string;
  chunks : list (list byte);
  abort : option exn
}.

Inductive http_outcome : Type :=
  | OpenFails (e : exn)
  | Opened (r : response).

(** ** The monad of effectful code *)

Definition M (A : Type) : Type := world -> result A * world.

Definition ret {A} (a : A) : M A := fun w => (Ok a, w).

Definition raise {A} (e : exn) : M A := fun w => (Raise e, w).

Definition bind {A B} (c : M A) (k : A -> M B) : M B :=
  fun w => match c w with
           | (Ok a, w') => k a w'
           | (Raise e, w') => (Raise e, w')
           end.

(** [try: c except C1 as e: h1 e except C2 as e: h2 e ...]: the first clause
    whose class [p] matches the exception handles it; an exception raised by
    a handler is not handled by its sibling clauses; the effects [c] made
    before it raised stay. *)
Fixpoint handle {A} (clauses : list ((exn -> bool) * (exn -> M A))) (e : exn) : M A :=
  match clauses with
  | [] => fun w => (Raise e, w)
  | (p, h) :: rest => if p e then h e else handle rest e
  end.

Definition try_except {A} (c : M A) (clauses : list ((exn -> bool) * (exn -> M A))) : M A :=
  fun w => match c w with
           | (Ok a, w') => (Ok a, w')
           | (Raise e, w') => handle clauses e w'
           end.

Definition lift {A} (r : result A) : M A := fun w => (r, w).

Notation "'let*' x ':=' c 'in' k" := (bind c (fun x => k))
  (at level 10, x name, c at level 100, k at level 200).
Notation "c1 ';;;' c2" := (bind c1 (fun _ => c2))
  (at level 100, c2 at level 200, right associativity).

Definition when (b : bool) (c : M unit) : M unit := if b then c else ret tt.

(** A [for x in xs: body x] loop. *)
Fixpoint for_ {X} (xs : list X) (body : X -> M unit) : M unit :=
  match xs with
  | [] => ret tt
  | x :: rest => body x ;;; for_ rest body
  end.

Definition is_Exception (e : exn) : bool := true.

(** ** Primitive operations *)

Definition emit (e : event) : M unit :=
  fun w => (Ok tt, mkWorld (fs w) (trace w ++ [e])).

Definition print (m : message) : M unit := emit (Print m).

(** [os.path.exists(path)] *)
Definition os_path_exists (path : string) : M bool :=
  fun w => (Ok (bool_decide (is_Some (fs w !! path))), w).

(** [os.remove(path)] *)
Definition os_remove (path : string) : M unit :=
  fun w => match fs w !! path with
           | Some _ => (Ok tt, mkWorld (delete path (fs w)) (trace w ++ [Remove path]))
           | None => (Raise FileNotFoundError, w)
           end.

(** [open(path, "rb")] followed by reading the file to its end. *)
Definition read_file (path : string) : M (list byte) :=
  fun w => match fs w !! path with
           | Some f => if readable f then (Ok (content f), w)
                       else (Raise PermissionError, w)
           | None => (Raise FileNotFoundError, w)
           end.

(** [open(path, "wb")]: the file is created, or truncated if it exists. *)
Definition open_wb (path : string) : M unit :=
  fun w =>
    let mode := match fs w !! path with Some f => readable f | None => true end in
    (Ok tt, mkWorld (<[path := mkFile [] mode]> (fs w)) (trace w)).

(** [f.write(chunk)] on the file opened at [path]. *)
Definition write (path : string) (chunk : list byte) : M unit :=
  fun w =>
    let old := match fs w !! path with Some f => f | None => mkFile [] true end in
    (Ok tt, mkWorld (<[path := mkFile (content old ++ chunk) (readable old)]> (fs w))
                    (trace w)).

(** [Path(path).mkdir(parents=True, exist_ok=True)] *)
Definition mkdir (path : string) : M unit := emit (Mkdir path).

(** The URLs requested so far, oldest first. *)
Definition requests (t : list event) : list string :=
  flat_map (fun e => match e with Request u => [u] | _ => [] end) t.

(** * The document seen by the specification

    The recognised elements of a document are those met on the path
    DEVICE / HARDWARE / RELEASE / IMAGE below the root, in document order. *)

Definition has_tag (t : string) (e : Element) : bool := String.eqb (tag e) t.

Definition select (t : string) (es : list Element) : list Element :=
  List.filter (has_tag t) es.

Definition device_elems (root : Element) : list Element :=
  select "DEVICE" (children root).
Definition hardware_elems (root : Element) : list Element :=
  flat_map (fun d => select "HARDWARE" (children d)) (device_elems root).
Definition release_elems (root : Element) : list Element :=
  flat_map (fun h => select "RELEASE" (children h)) (hardware_elems root).
Definition image_elems (root : Element) : list Element :=
  flat_map (fun r => select "IMAGE" (children r)) (release_elems root).

Definition all_hardware (index : FirmwareIndex.t) : list Hardware.t :=
  flat_map Device.hardware (FirmwareIndex.devices index).
Definition all_releases (index : FirmwareIndex.t) : list Release.t :=
  flat_map Hardware.releases (all_hardware index).
Definition all_images (index : FirmwareIndex.t) : list Image.t :=
  flat_map Release.images (all_releases index).

(** The element [e] with its children replaced. *)
Definition with_children (e : Element) (cs : list Element) : Element :=
  mkElement (tag e) (attrib e) cs.

(** The element [e] without the children that its level does not
    recognise. *)
Definition only (t : string) (e : Element) : Element :=
  with_children e (select t (children e)).

(** [parsed_x v e]: the parser turns the element [e] into the value [v]. *)
Definition parsed_image (i : Image.t) (e : Element) : Prop := _parse_image e = Ok i.
Definition parsed_release (r : Release.t) (e : Element) : Prop := _parse_release e = Ok r.
Definition parsed_hardware (h : Hardware.t) (e : Element) : Prop := _parse_hardware e = Ok h.
Definition parsed_device (d : Device.t) (e : Element) : Prop := _parse_device e = Ok d.


(** * The environment and the fetcher ([FirmwareDownloader]) *)

Section Env.

(** [hashlib.md5(data).hexdigest()] *)
Variable hexdigest : list byte -> string.
(** [bytes.decode("utf-8")] *)
Variable decode_utf8 : list byte -> result string.
(** [xml.etree.ElementTree.fromstring] *)
Variable fromstring : string -> result Element.
(** The remote side: the outcome of the [n]-th request of the run
    (counted from 0) when it asks for [url]. *)
Variable server : nat -> string -> http_outcome.

(** [urllib.request.urlopen(req, timeout=300)] *)
Definition urlopen (url : string) : M response :=
  fun w =>
    let w' := mkWorld (fs w) (trace w ++ [Request url]) in
    match server (List.length (requests (trace w))) url with
    | OpenFails e => (Raise e, w')
    | Opened r => (Ok r, w')
    end.

(** [FirmwareParser.parse_from_string] *)
Definition parse_from_string (xml_content : string) : M FirmwareIndex.t :=
  try_except
    (let* root := lift (fromstring xml_content) in
     lift (_parse_root root))
    [(is_Exception, fun e =>
       print MsgCouldNotParse ;;;
       print (MsgDetails e) ;;;
       ret FirmwareIndex.new)].

(** The object [self]: its only attribute is the base directory. *)
Record FirmwareDownloader : Type := { base_directory : string }.

Definition create_directory (path : string) : M bool :=
  try_except
    (mkdir path ;;; ret true)
    [(is_Exception, fun e => print (MsgDirectoryError path e) ;;; ret false)].


Definition construct_url (release : Release.t) (image : Image.t) : string :=
  "https://" ++ Release.httphost release ++ Release.urlpath release
             ++ Image.filename image.

Definition construct_output_path (self : FirmwareDownloader)
    (release : Release.t) (image : Image.t) : string :=
  os_path_join (base_directory self)
    [Release.channel release; Release.date release;
     Release.revision release; Image.filename image].

(** [int(response.headers.get("content-length", 0))] *)
Definition total_size_of (r : response) : result Z :=
  match content_length r with
  | Some s => py_int s
  | None => Ok 0%Z
  end.

(** The [while True] loop of [download_file]. *)
Fixpoint transfer (output_path : string) (total_size downloaded : Z)
    (pending : list (list byte)) (final : option exn) : M unit :=
  match pending with
  | [] => match final with
          | Some e => raise e
          | None => ret tt
          end
  | chunk :: rest =>
      match chunk with
      | [] => ret tt
      | _ =>
          write output_path chunk ;;;
          let downloaded := (downloaded + Z.of_nat (List.length chunk))%Z in
          when (0 <? total_size)%Z (print (MsgProgress downloaded total_size)) ;;;
          transfer output_path total_size downloaded rest final
      end
  end.

Definition download_file (url output_path : string) : M bool :=
  let cleanup :=
    let* present := os_path_exists output_path in
    when present (os_remove output_path) ;;;
    ret false in
  try_except
    (let* response := urlopen url in
     let* total_size := lift (total_size_of response) in
     open_wb output_path ;;;
     transfer output_path total_size 0 (chunks response) (abort response) ;;;
     print MsgNewline ;;;
     ret true)
    [(is_URLError, fun e => print (MsgURLError e) ;;; cleanup);
     (is_Exception, fun e => print (MsgDownloadError e) ;;; cleanup)].

Definition calculate_md5 (file_path : string) : M string :=
  try_except
    (let* data := read_file file_path in
     ret (hexdigest data))
    [(is_Exception, fun e => print (MsgMD5Error file_path e) ;;; ret "")].

Definition validate_md5 (file_path expected_md5 : string) : M bool :=
  let* calculated := calculate_md5 file_path in
  let is_valid := String.eqb (lower calculated) (lower expected_md5) in
  when (negb is_valid)
    (print (MsgExpectedMD5 expected_md5) ;;;
     print (MsgCalculated calculated)) ;;;
  ret is_valid.

(** [download_release], lines 78-87: what the loop body does once it has
    decided to download. *)
Definition download_and_validate (url output_path : string) (image : Image.t) : M unit :=
  print (MsgDownloading (Image.filename image)) ;;;
  let* downloaded := download_file url output_path in
  if downloaded then
    print MsgDownloadedSuccessfully ;;;
    let* valid := validate_md5 output_path (Image.md5 image) in
    if valid then print MsgMD5Passed else print MsgMD5Failed
  else print MsgDownloadFailed.

(** The body of the loop of [download_release], one image. *)
Definition download_image (self : FirmwareDownloader)
    (release : Release.t) (image : Image.t) : M unit :=
  let url := construct_url release image in
  let output_path := construct_output_path self release image in
  create_directory (os_path_dirname output_path) ;;;
  let* present := os_path_exists output_path in
  if present then
    print (MsgChecking (Image.filename image)) ;;;
    let* valid := validate_md5 output_path (Image.md5 image) in
    if valid then print MsgAlreadyDownloaded      (* continue *)
    else
      print MsgInvalidRedownloading ;;;
      os_remove output_path ;;;
      download_and_validate url output_path image
  else download_and_validate url output_path image.

Definition download_release (self : FirmwareDownloader)
    (release : Release.t) (device_name : string) : M unit :=
  for_ (Release.images release) (download_image self release).

Definition download_all (self : FirmwareDownloader) (index : FirmwareIndex.t) : M unit :=
  print (MsgStarting (FirmwareIndex.revision index)) ;;;
  for_ (FirmwareIndex.devices index) (fun device =>
    print (MsgDevice (Device.productname device) (Device.id device)) ;;;
    for_ (Device.hardware device) (fun hardware =>
      print (MsgHardware (Hardware.revision hardware)) ;;;
      for_ (Hardware.releases hardware) (fun release =>
        print (MsgRelease (Release.channel release) (Release.date release)
                          (Release.revision release)) ;;;
        download_release self release (Device.productname device)))) ;;;
  print MsgCompleted.

(** [response.read()]: the whole body, or the exception that ends it. *)
Fixpoint read_all (pending : list (list byte)) (final : option exn) : result (list byte) :=
  match pending with
  | [] => match final with
          | Some e => Raise e
          | None => Ok []
          end
  | chunk :: rest =>
      match chunk with
      | [] => Ok []
      | _ => let+ more := read_all rest final in Ok (chunk ++ more)
      end
  end.


(** * The driver ([main.py]) *)

Definition default_index_url : string :=
  "https://releases.firmware.ozloapp.co/dd/sleepbuds3/index.xml".




(** * What the specification observes of a run *)

(** The digest [calculate_md5] computes for [path] in the world [w]: the
    empty string when the file cannot be read. *)
Definition computed_digest (w : world) (path : string) : string :=
  match fs w !! path with
  | Some f => if readable f then hexdigest (content f) else ""
  | None => ""
  end.

(** Case-insensitive comparison of the computed digest with the expected
    one. *)
Definition digest_matches (w : world) (path expected : string) : bool :=
  String.eqb (lower (computed_digest w path)) (lower expected).

(** The destination exists and its digest is the expected one. *)
Definition already_satisfied (w : world) (path expected : string) : bool :=
  bool_decide (is_Some (fs w !! path)) && digest_matches w path expected.

(** The message [calculate_md5] prints when it cannot read the file. *)
Definition md5_error_trace (w : world) (path : string) : list event :=
  match fs w !! path with
  | Some f => if readable f then []
              else [Print (MsgMD5Error path PermissionError)]
  | None => [Print (MsgMD5Error path FileNotFoundError)]
  end.

(** All that [validate_md5] prints. *)
Definition validate_trace (w : world) (path expected : string) : list event :=
  md5_error_trace w path ++
  (if digest_matches w path expected then []
   else [Print (MsgExpectedMD5 expected);
         Print (MsgCalculated (computed_digest w path))]).

(** One HTTP transfer as a whole: the body received, or the exception
    that ended it (on opening, on a malformed Content-Length, or while
    reading). *)
Definition fetch_result (o : http_outcome) : result (list byte) :=
  match o with
  | OpenFails e => Raise e
  | Opened r => let+ _ := total_size_of r in read_all (chunks r) (abort r)
  end.

(** The outcome of the next request of the run, if it asks for [url]. *)
Definition next_fetch (w : world) (url : string) : result (list byte) :=
  fetch_result (server (List.length (requests (trace w))) url).

(** The trace without the progress reports of a transfer. *)
Definition salient (t : list event) : list event :=
  List.filter (fun e => match e with Print (MsgProgress _ _) => false | _ => true end) t.

Definition mkdirs (t : list event) : list string :=
  flat_map (fun e => match e with Mkdir p => [p] | _ => [] end) t.

(** The messages that close the treatment of one image. *)
Definition is_verdict (e : event) : bool :=
  match e with
  | Print MsgAlreadyDownloaded | Print MsgMD5Passed
  | Print MsgMD5Failed | Print MsgDownloadFailed => true
  | _ => false
  end.

Definition verdicts (t : list event) : list event := List.filter is_verdict t.

(** The message of the [except] clause that handles [e] in
    [download_file] and [download_index_xml]. *)
Definition transport_error_message (e : exn) : message :=
  if is_URLError e then MsgURLError e else MsgDownloadError e.

(** The files after one download to [path]: the body received, or no
    file. *)
Definition fs_after_fetch (m : gmap string file) (path : string)
    (outcome : result (list byte)) : gmap string file :=
  match outcome with
  | Ok body => <[path := mkFile body true]> m
  | Raise _ => delete path m
  end.

(** What the verification of a downloaded body reports. *)
Definition verification_report (body : list byte) (expected : string) : list event :=
  if String.eqb (lower (hexdigest body)) (lower expected)
  then [Print MsgMD5Passed]
  else [Print (MsgExpectedMD5 expected);
        Print (MsgCalculated (hexdigest body));
        Print MsgMD5Failed].

(** The events of one download, progress reports left out; [cleanup] is
    the removal of the partial file, if one had been created. *)
Definition download_report (image : Image.t) (url : string)
    (outcome : result (list byte)) (cleanup : list event) : list event :=
  Print (MsgDownloading (Image.filename image)) :: Request url ::
  match outcome with
  | Ok body =>
      Print MsgNewline :: Print MsgDownloadedSuccessfully ::
      verification_report body (Image.md5 image)
  | Raise e =>
      Print (transport_error_message e) :: cleanup ++ [Print MsgDownloadFailed]
  end.

(** The events that precede the download of an image whose destination
    is not already satisfied. *)
Definition stale_report (w : world) (image : Image.t) (path : string) : list event :=
  Mkdir (os_path_dirname path) ::
  match fs w !! path with
  | Some _ =>
      Print (MsgChecking (Image.filename image)) ::
      validate_trace w path (Image.md5 image) ++
      [Print MsgInvalidRedownloading; Remove path]
  | None => []
  end.

(** The verdict the loop body reaches for one image, and the requests it
    makes, as the specification describes them. *)
Definition image_verdict (w : world) (self : FirmwareDownloader)
    (release : Release.t) (image : Image.t) : message :=
  if already_satisfied w (construct_output_path self release image) (Image.md5 image)
  then MsgAlreadyDownloaded
  else match next_fetch w (construct_url release image) with
       | Ok body =>
           if String.eqb (lower (hexdigest body)) (lower (Image.md5 image))
           then MsgMD5Passed else MsgMD5Failed
       | Raise _ => MsgDownloadFailed
       end.

Definition image_requests (w : world) (self : FirmwareDownloader)
    (release : Release.t) (image : Image.t) : list string :=
  if already_satisfied w (construct_output_path self release image) (Image.md5 image)
  then []
  else [construct_url release image].

(** The files after the loop body has treated one image. *)
Definition image_files (w : world) (self : FirmwareDownloader)
    (release : Release.t) (image : Image.t) : gmap string file :=
  let path := construct_output_path self release image in
  if already_satisfied w path (Image.md5 image)
  then fs w
  else fs_after_fetch (fs w) path (next_fetch w (construct_url release image)).





(** The destination of every image of the index, in traversal order. *)
Definition release_destinations (self : FirmwareDownloader) (r : Release.t) : list string :=
  map (construct_output_path self r) (Release.images r).
Definition hardware_destinations (self : FirmwareDownloader) (h : Hardware.t) : list string :=
  flat_map (release_destinations self) (Hardware.releases h).
Definition device_destinations (self : FirmwareDownloader) (d : Device.t) : list string :=
  flat_map (hardware_destinations self) (Device.hardware d).
Definition destinations (self : FirmwareDownloader) (index : FirmwareIndex.t) : list string :=
  flat_map (device_destinations self) (FirmwareIndex.devices index).


(** [body] treats every [x] without raising: it creates the parent
    directory of each destination in [f x], reaches one verdict for each
    and makes at most one request for each. *)
Definition treats {X} (body : X -> M unit) (f : X -> list string) : Prop :=
  forall x w,
  exists t m,
    body x w = (Ok tt, mkWorld m (trace w ++ t)) /\
    mkdirs t = map os_path_dirname (f x) /\
    List.length (verdicts t) = List.length (f x) /\
    List.length (requests t) <= List.length (f x).

(** Some component after the base directory is an absolute path. *)
Definition any_absolute (release : Release.t) (image : Image.t) : bool :=
  startswith_sep (Release.channel release) || startswith_sep (Release.date release)
  || startswith_sep (Release.revision release) || startswith_sep (Image.filename image).

(** A directory name that [os.path.join] keeps as one level of its own:
    not empty, and no separator at its end. *)
Definition keeps_level (s : string) : bool :=
  negb (String.eqb s "") && negb (endswith_sep s).


(** * Sample data

    A small catalogue, a release and worlds on which the model is run.
    [sample_hexdigest] has the shape of a digest (32 hexadecimal
    characters) and stands for the real one; [sample_fromstring] knows
    one document and rejects every other text, as the XML parser rejects
    a malformed one. *)

Definition hex_digit (n : nat) : ascii :=
  if (n <? 10)%nat then ascii_of_nat (48 + n) else ascii_of_nat (87 + n).

Definition byte_sum (data : list byte) : nat :=
  fold_right (fun b acc => (Byte.to_nat b + acc) mod 256)%nat 0%nat data.

Definition sample_hexdigest (data : list byte) : string :=
  String (hex_digit (byte_sum data / 16)) (String (hex_digit (byte_sum data mod 16))
    "000000000000000000000000000000").


Definition sample_image_elem : Element :=
  mkElement "IMAGE"
    (<["FILENAME" := "fw.bin"]> (<["MD5" := "AB000000000000000000000000000000"]>
     (<["LENGTH" := "not-a-number"]> ∅))) [].

Definition sample_release_elem : Element :=
  mkElement "RELEASE"
    (<["CHANNEL" := "stable"]> (<["DATE" := "2024-01-01"]>
     (<["HTTPHOST" := "host.example"]> (<["URLPATH" := "/fw/"]>
     (<["REVISION" := "v2"]> ∅)))))
    [mkElement "NOTE" ∅ []; sample_image_elem].

Definition sample_root : Element :=
  mkElement "INDEX" (<["REVISION" := "7"]> ∅)
    [mkElement "DEVICE" (<["ID" := "d1"]> (<["PRODUCTNAME" := "Buds"]> ∅))
       [mkElement "HARDWARE" (<["REVISION" := "h1"]> ∅) [sample_release_elem]];
     mkElement "COMMENT" ∅ []].

Definition sample_xml : string :=
  "<INDEX REVISION='7'><DEVICE ID='d1' PRODUCTNAME='Buds'><HARDWARE REVISION='h1'><RELEASE CHANNEL='stable' DATE='2024-01-01' HTTPHOST='host.example' URLPATH='/fw/' REVISION='v2'><NOTE/><IMAGE FILENAME='fw.bin' MD5='AB000000000000000000000000000000' LENGTH='not-a-number'/></RELEASE></HARDWARE></DEVICE><COMMENT/></INDEX>".


Definition sample_fromstring (text : string) : result Element :=
  if String.eqb text sample_xml then Ok sample_root
  else Raise (ParseError "not well-formed (invalid token)").

Definition sample_self : FirmwareDownloader := {| base_directory := "out" |}.

Definition sample_image : Image.t :=
  Image.mk "fw.bin" "AB000000000000000000000000000000" "" "" "" "" "" 0 0 0.

Definition sample_release : Release.t :=
  Release.mk "stable" "2024-01-01" "host.example" "/fw/" "v2" [sample_image].




Definition sample_release_absolute : Release.t :=
  Release.mk "/tmp" "2024-01-01" "host.example" "/fw/" "v2" [sample_image].

Definition sample_path : string := "out/stable/2024-01-01/v2/fw.bin".
Definition sample_url : string := "https://host.example/fw/fw.bin".

(** The right firmware: one byte whose sample digest is [ab00...]. *)
Definition good_body : list byte := [xab].
Definition bad_body : list byte := [x01; x02].

Definition empty_world : world := mkWorld ∅ [].
Definition world_with (data : list byte) (can_read : bool) : world :=
  mkWorld (<[sample_path := mkFile data can_read]> ∅) [].

Definition respond (body : list (list byte)) (final : option exn) : http_outcome :=
  Opened (mkResponse None body final).

(** A server that has the index and the right image. *)
Definition good_server (n : nat) (url : string) : http_outcome :=
  if String.eqb url default_index_url
  then respond [list_byte_of_string sample_xml] None
  else if String.eqb url sample_url then respond [good_body] None
  else OpenFails (URLError "HTTP Error 404: Not Found").

(** A server that sends a wrong image. *)
Definition corrupting_server (n : nat) (url : string) : http_outcome :=
  if String.eqb url default_index_url
  then respond [list_byte_of_string sample_xml] None
  else respond [bad_body] None.


(** A server that cannot be reached. *)
Definition unreachable_server (n : nat) (url : string) : http_outcome :=
  OpenFails (URLError "Name or service not known").


(** * Further notions, for the properties beyond the claims *)

(** The element [e] with the attribute [key] set to [value]. *)
Definition with_attribute (key value : string) (e : Element) : Element :=
  mkElement (tag e) (<[key := value]> (attrib e)) (children e).

(** The attribute names each parsing function reads. *)
Definition root_attributes : list string := ["REVISION"].
Definition device_attributes : list string := ["ID"; "PRODUCTNAME"].
Definition hardware_attributes : list string := ["REVISION"].
Definition release_attributes : list string :=
  ["CHANNEL"; "DATE"; "HTTPHOST"; "URLPATH"; "REVISION"].
Definition image_attributes : list string :=
  ["FILENAME"; "MD5"; "NXH_VERSION"; "L_BUD_VERSION"; "R_BUD_VERSION";
   "REVISION"; "BUILD_ID"; "LENGTH"; "TARGET"; "SUBID"].

(** [key] is one of [keys], compared character by character. *)
Definition reads (keys : list string) (key : string) : bool :=
  existsb (String.eqb key) keys.

(** [sep in s] *)
Fixpoint contains_sep (s : string) : bool :=
  match s with
  | EmptyString => false
  | String c rest => Ascii.eqb c sep || contains_sep rest
  end.

(** The directory of a release below the base directory. *)
Definition release_directory (self : FirmwareDownloader) (release : Release.t) : string :=
  String.append (base_directory self)
    (String.append "/" (String.append (Release.channel release)
       (String.append "/" (String.append (Release.date release)
          (String.append "/" (Release.revision release)))))).







(** Every image of the index has its destination already satisfied in
    [w]. *)
Definition release_up_to_date (self : FirmwareDownloader) (w : world)
    (r : Release.t) : bool :=
  forallb (fun i => already_satisfied w (construct_output_path self r i) (Image.md5 i))
          (Release.images r).
Definition up_to_date (self : FirmwareDownloader) (index : FirmwareIndex.t)
    (w : world) : bool :=
  forallb (fun d =>
    forallb (fun h => forallb (release_up_to_date self w) (Hardware.releases h))
            (Device.hardware d))
    (FirmwareIndex.devices index).

(** On the files [m], [body x] has nothing to do for an [x] that is [ok]:
    it returns, requests nothing, leaves the files, and every verdict it
    reaches is "already downloaded". *)
Definition rests {X} (m : gmap string file) (body : X -> M unit) (ok : X -> bool) : Prop :=
  forall x w,
    ok x = true -> fs w = m ->
    exists t,
      body x w = (Ok tt, mkWorld m (trace w ++ t)) /\
      requests t = [] /\
      Forall (fun e => e = Print MsgAlreadyDownloaded) (verdicts t).

(** ** More sample data *)

Definition sample_index : FirmwareIndex.t :=
  FirmwareIndex.mk "7"
    [Device.mk "d1" "Buds" [Hardware.mk "h1" [sample_release]]].


(** The expected digest of [sample_image] in lower case, served from
    another host. *)
Definition sample_image_lower_md5 : Image.t :=
  Image.mk "fw.bin" "ab000000000000000000000000000000" "" "" "" "" "" 0 0 0.

Definition sample_release_mirror : Release.t :=
  Release.mk "stable" "2024-01-01" "mirror.example" "/m/" "v2" [sample_image_lower_md5].




(** * Properties of the parser *)

Lemma py_int_only_ValueError s e : py_int s = Raise e -> e = ValueError.
Proof.
  unfold py_int.
  destruct (match strip (list_ascii_of_string s) with
            | [] => _ | _ :: _ => _ end) as [negative body].
  destruct (digits 0 false body); congruence.
Qed.

Lemma int_attribute_value elem key :
  int_attribute elem key =
  Ok (match py_int (get elem key "0") with Ok n => n | Raise _ => 0%Z end).
Proof.
  unfold int_attribute, rcatch.
  destruct (py_int (get elem key "0")) as [n|e] eqn:E; [reflexivity|].
  apply py_int_only_ValueError in E. subst e. reflexivity.
Qed.



Lemma _parse_image_total elem : exists image, _parse_image elem = Ok image.
Proof.
  unfold _parse_image. rewrite !int_attribute_value. simpl. eauto.
Qed.

(** A loop that appends the parsed value of every selected child. *)
Lemma for_each_collect {X Y S} (p : X -> bool) (f : X -> result Y)
    (snoc : Y -> S -> S) (xs : list X) (s : S) :
  (forall x, exists y, f x = Ok y) ->
  exists ys,
    Forall2 (fun y x => f x = Ok y) ys (List.filter p xs) /\
    for_each xs
      (fun x s => if p x then let+ y := f x in Ok (snoc y s) else Ok s) s
    = Ok (fold_left (fun s y => snoc y s) ys s).
Proof.
  intros Hf. revert s. induction xs as [|x xs IH]; intros s; simpl.
  - exists []. split; [constructor | reflexivity].
  - destruct (p x) eqn:Hp.
    + destruct (Hf x) as [y Hy]. rewrite Hy. simpl.
      destruct (IH (snoc y s)) as (ys & Hys & Hrun).
      exists (y :: ys). split; [constructor; assumption | exact Hrun].
    + simpl. destruct (IH s) as (ys & Hys & Hrun).
      exists ys. split; assumption.
Qed.

Lemma fold_append_image ys r :
  fold_left (fun s y => Release.append_image y s) ys r =
  Release.mk (Release.channel r) (Release.date r) (Release.httphost r)
    (Release.urlpath r) (Release.revision r) (Release.images r ++ ys).
Proof.
  revert r. induction ys as [|y ys IH]; intros r; simpl.
  - rewrite app_nil_r. destruct r; reflexivity.
  - rewrite IH. simpl. rewrite <- app_assoc. reflexivity.
Qed.

Lemma fold_append_release ys h :
  fold_left (fun s y => Hardware.append_release y s) ys h =
  Hardware.mk (Hardware.revision h) (Hardware.releases h ++ ys).
Proof.
  revert h. induction ys as [|y ys IH]; intros h; simpl.
  - rewrite app_nil_r. destruct h; reflexivity.
  - rewrite IH. simpl. rewrite <- app_assoc. reflexivity.
Qed.

Lemma fold_append_hardware ys d :
  fold_left (fun s y => Device.append_hardware y s) ys d =
  Device.mk (Device.id d) (Device.productname d) (Device.hardware d ++ ys).
Proof.
  revert d. induction ys as [|y ys IH]; intros d; simpl.
  - rewrite app_nil_r. destruct d; reflexivity.
  - rewrite IH. simpl. rewrite <- app_assoc. reflexivity.
Qed.

Lemma fold_append_device ys x :
  fold_left (fun s y => FirmwareIndex.append_device y s) ys x =
  FirmwareIndex.mk (FirmwareIndex.revision x) (FirmwareIndex.devices x ++ ys).
Proof.
  revert x. induction ys as [|y ys IH]; intros x; simpl.
  - rewrite app_nil_r. destruct x; reflexivity.
  - rewrite IH. simpl. rewrite <- app_assoc. reflexivity.
Qed.

Lemma _parse_release_spec e :
  exists images,
    Forall2 parsed_image images (select "IMAGE" (children e)) /\
    _parse_release e =
    Ok (Release.mk (get e "CHANNEL" "") (get e "DATE" "") (get e "HTTPHOST" "")
          (get e "URLPATH" "") (get e "REVISION" "") images).
Proof.
  unfold _parse_release.
  edestruct (for_each_collect (has_tag "IMAGE") _parse_image Release.append_image
               (children e)) as (ys & Hys & Hrun); [apply _parse_image_total|].
  exists ys. split; [exact Hys|].
  unfold has_tag in Hrun. rewrite Hrun, fold_append_image. reflexivity.
Qed.

Lemma _parse_hardware_spec e :
  exists releases,
    Forall2 parsed_release releases (select "RELEASE" (children e)) /\
    _parse_hardware e = Ok (Hardware.mk (get e "REVISION" "") releases).
Proof.
  unfold _parse_hardware.
  edestruct (for_each_collect (has_tag "RELEASE") _parse_release
               Hardware.append_release (children e)) as (ys & Hys & Hrun).
  { intros x. destruct (_parse_release_spec x) as (? & _ & ->). eauto. }
  exists ys. split; [exact Hys|].
  unfold has_tag in Hrun. rewrite Hrun, fold_append_release. reflexivity.
Qed.

Lemma _parse_device_spec e :
  exists hardware,
    Forall2 parsed_hardware hardware (select "HARDWARE" (children e)) /\
    _parse_device e =
    Ok (Device.mk (get e "ID" "") (get e "PRODUCTNAME" "") hardware).
Proof.
  unfold _parse_device.
  edestruct (for_each_collect (has_tag "HARDWARE") _parse_hardware
               Device.append_hardware (children e)) as (ys & Hys & Hrun).
  { intros x. destruct (_parse_hardware_spec x) as (? & _ & ->). eauto. }
  exists ys. split; [exact Hys|].
  unfold has_tag in Hrun. rewrite Hrun, fold_append_hardware. reflexivity.
Qed.

Lemma _parse_root_spec root :
  exists devices,
    Forall2 parsed_device devices (device_elems root) /\
    _parse_root root = Ok (FirmwareIndex.mk (get root "REVISION" "") devices).
Proof.
  unfold _parse_root.
  edestruct (for_each_collect (has_tag "DEVICE") _parse_device
               FirmwareIndex.append_device (children root)) as (ys & Hys & Hrun).
  { intros x. destruct (_parse_device_spec x) as (? & _ & ->). eauto. }
  exists ys. split; [exact Hys|].
  unfold has_tag in Hrun. rewrite Hrun, fold_append_device. reflexivity.
Qed.

Lemma Forall2_flat_map {A B C D} (R : A -> B -> Prop) (Q : C -> D -> Prop)
    (f : A -> list C) (g : B -> list D) l1 l2 :
  (forall a b, R a b -> Forall2 Q (f a) (g b)) ->
  Forall2 R l1 l2 -> Forall2 Q (flat_map f l1) (flat_map g l2).
Proof.
  intros Hfg H. induction H as [|a b l1 l2 Hab _ IH]; simpl.
  - constructor.
  - apply Forall2_app; [apply Hfg; exact Hab | exact IH].
Qed.


Lemma parsed_device_hardware d e :
  parsed_device d e ->
  Forall2 parsed_hardware (Device.hardware d) (select "HARDWARE" (children e)).
Proof.
  unfold parsed_device. destruct (_parse_device_spec e) as (hw & Hhw & ->).
  intros [= <-]. exact Hhw.
Qed.

Lemma parsed_hardware_releases h e :
  parsed_hardware h e ->
  Forall2 parsed_release (Hardware.releases h) (select "RELEASE" (children e)).
Proof.
  unfold parsed_hardware. destruct (_parse_hardware_spec e) as (rs & Hrs & ->).
  intros [= <-]. exact Hrs.
Qed.

Lemma parsed_release_images r e :
  parsed_release r e ->
  Forall2 parsed_image (Release.images r) (select "IMAGE" (children e)).
Proof.
  unfold parsed_release. destruct (_parse_release_spec e) as (imgs & Himgs & ->).
  intros [= <-]. exact Himgs.
Qed.

(** Children that a level does not select do not change what a loop
    over the children computes. *)
Lemma for_each_filter {X S} (p : X -> bool) (f : X -> S -> result S) xs s :
  for_each (List.filter p xs) (fun x s => if p x then f x s else Ok s) s =
  for_each xs (fun x s => if p x then f x s else Ok s) s.
Proof.
  revert s. induction xs as [|x xs IH]; intros s; simpl; [reflexivity|].
  destruct (p x) eqn:Hp; simpl; rewrite ?Hp.
  - destruct (f x s); simpl; [apply IH | reflexivity].
  - apply IH.
Qed.

Lemma parser_total xml_content w :
  exists index w', parse_from_string xml_content w = (Ok index, w') /\ fs w' = fs w.
Proof.
  unfold parse_from_string, try_except, bind, lift.
  destruct (fromstring xml_content) as [root|e]; simpl.
  - destruct (_parse_root_spec root) as (ds & _ & ->). eauto.
  - eauto.
Qed.

(** C6.  Every document is parsed, and the index has one device per DEVICE
    child of the root, one hardware revision per HARDWARE child of those,
    one release per RELEASE child of those and one image per IMAGE child
    of those, each the parse of its element and all in document order, so
    the four counts agree; at every level the children with another tag
    change nothing and raise nothing. *)
Theorem parse_counts_and_order (root : Element) :
  exists index,
    _parse_root root = Ok index /\
    (forall xml_content w,
        fromstring xml_content = Ok root ->
        parse_from_string xml_content w = (Ok index, w)) /\
    Forall2 parsed_device (FirmwareIndex.devices index) (device_elems root) /\
    Forall2 parsed_hardware (all_hardware index) (hardware_elems root) /\
    Forall2 parsed_release (all_releases index) (release_elems root) /\
    Forall2 parsed_image (all_images index) (image_elems root) /\
    List.length (FirmwareIndex.devices index) = List.length (device_elems root) /\
    List.length (all_hardware index) = List.length (hardware_elems root) /\
    List.length (all_releases index) = List.length (release_elems root) /\
    List.length (all_images index) = List.length (image_elems root) /\
    _parse_root (only "DEVICE" root) = _parse_root root /\
    (forall e, _parse_device (only "HARDWARE" e) = _parse_device e) /\
    (forall e, _parse_hardware (only "RELEASE" e) = _parse_hardware e) /\
    (forall e, _parse_release (only "IMAGE" e) = _parse_release e).
Proof.
  destruct (_parse_root_spec root) as (ds & Hds & Hroot).
  exists (FirmwareIndex.mk (get root "REVISION" "") ds).
  assert (Hhw : Forall2 parsed_hardware (flat_map Device.hardware ds)
                  (hardware_elems root)).
  { unfold hardware_elems.
    eapply Forall2_flat_map; [|exact Hds]. apply parsed_device_hardware. }
  assert (Hrel : Forall2 parsed_release
                   (flat_map Hardware.releases (flat_map Device.hardware ds))
                   (release_elems root)).
  { unfold release_elems.
    eapply Forall2_flat_map; [|exact Hhw]. apply parsed_hardware_releases. }
  assert (Himg : Forall2 parsed_image
                   (flat_map Release.images
                      (flat_map Hardware.releases (flat_map Device.hardware ds)))
                   (image_elems root)).
  { unfold image_elems.
    eapply Forall2_flat_map; [|exact Hrel]. apply parsed_release_images. }
  unfold all_images, all_releases, all_hardware. simpl.
  repeat split; try assumption.
  - intros xml_content w Hxml.
    unfold parse_from_string, try_except, bind, lift.
    rewrite Hxml, Hroot. reflexivity.
  - eapply Forall2_length; eassumption.
  - eapply Forall2_length; eassumption.
  - eapply Forall2_length; eassumption.
  - eapply Forall2_length; eassumption.
  - unfold _parse_root, only, with_children, select, get. simpl.
    apply (for_each_filter (has_tag "DEVICE")).
  - intros e. unfold _parse_device, only, with_children, select, get. simpl.
    apply (for_each_filter (has_tag "HARDWARE")).
  - intros e. unfold _parse_hardware, only, with_children, select, get. simpl.
    apply (for_each_filter (has_tag "RELEASE")).
  - intros e. unfold _parse_release, only, with_children, select, get. simpl.
    apply (for_each_filter (has_tag "IMAGE")).
Qed.


(** * Properties of the fetcher *)

Ltac unfold_monad :=
  unfold try_except, bind, ret, raise, lift, when, print, mkdir, emit,
         os_path_exists in *; simpl in *.

Lemma world_eta w : mkWorld (fs w) (trace w) = w.
Proof. destruct w; reflexivity. Qed.

Lemma world_trace_nil w : mkWorld (fs w) (trace w ++ []) = w.
Proof. rewrite app_nil_r. apply world_eta. Qed.

Lemma calculate_md5_spec path w :
  calculate_md5 path w =
  (Ok (computed_digest w path),
   mkWorld (fs w) (trace w ++ md5_error_trace w path)).
Proof.
  unfold calculate_md5, computed_digest, md5_error_trace, read_file.
  unfold_monad.
  destruct (fs w !! path) as [f|]; [destruct (readable f)|]; simpl;
    rewrite ?world_trace_nil; reflexivity.
Qed.

Lemma validate_md5_spec path expected w :
  validate_md5 path expected w =
  (Ok (digest_matches w path expected),
   mkWorld (fs w) (trace w ++ validate_trace w path expected)).
Proof.
  unfold validate_md5, bind. rewrite calculate_md5_spec.
  unfold validate_trace, digest_matches.
  destruct (String.eqb _ _); unfold_monad.
  - rewrite app_nil_r. reflexivity.
  - rewrite <- !app_assoc. reflexivity.
Qed.

Lemma file_eta f : mkFile (content f) (readable f) = f.
Proof. destruct f; reflexivity. Qed.

Lemma salient_app t1 t2 : salient (t1 ++ t2) = salient t1 ++ salient t2.
Proof. apply List.filter_app. Qed.

Lemma requests_app t1 t2 : requests (t1 ++ t2) = requests t1 ++ requests t2.
Proof. apply flat_map_app. Qed.

Lemma mkdirs_app t1 t2 : mkdirs (t1 ++ t2) = mkdirs t1 ++ mkdirs t2.
Proof. apply flat_map_app. Qed.

Lemma verdicts_app t1 t2 : verdicts (t1 ++ t2) = verdicts t1 ++ verdicts t2.
Proof. apply List.filter_app. Qed.

(** The transfer loop writes the body that [read_all] describes, and
    raises exactly when [read_all] does, leaving what was written. *)
Lemma transfer_spec path total pending final :
  forall downloaded w f,
    fs w !! path = Some f ->
    exists t data,
      salient t = [] /\
      transfer path total downloaded pending final w =
      (match read_all pending final with Ok _ => Ok tt | Raise e => Raise e end,
       mkWorld (<[path := mkFile (content f ++ data) (readable f)]> (fs w))
               (trace w ++ t)) /\
      (forall body, read_all pending final = Ok body -> data = body).
Proof.
  induction pending as [|chunk rest IH]; intros downloaded w f Hf.
  - exists [], []. split; [reflexivity|]. rewrite !app_nil_r, file_eta.
    rewrite (insert_id _ _ _ Hf), world_eta. simpl.
    destruct final; unfold raise, ret; split; congruence.
  - destruct chunk as [|b chunk].
    + exists [], []. split; [reflexivity|]. rewrite !app_nil_r, file_eta.
      rewrite (insert_id _ _ _ Hf), world_eta. simpl.
      unfold ret; split; congruence.
    + set (c := b :: chunk).
      set (f1 := mkFile (content f ++ c) (readable f)).
      set (t0 := if (0 <? total)%Z
                 then [Print (MsgProgress (downloaded + Z.of_nat (List.length c)) total)]
                 else []).
      set (w1 := mkWorld (<[path := f1]> (fs w)) (trace w ++ t0)).
      assert (Hf1 : fs w1 !! path = Some f1) by apply lookup_insert_eq.
      destruct (IH (downloaded + Z.of_nat (List.length c))%Z w1 f1 Hf1)
        as (t & data & Hsal & Hrun & Hbody).
      exists (t0 ++ t), (c ++ data). split; [|split].
      * rewrite salient_app, Hsal. unfold t0. destruct (0 <? total)%Z; reflexivity.
      * change (transfer path total downloaded (c :: rest) final w)
          with ((write path c ;;;
                 when (0 <? total)%Z
                   (print (MsgProgress (downloaded + Z.of_nat (List.length c)) total)) ;;;
                 transfer path total (downloaded + Z.of_nat (List.length c)) rest final) w).
        unfold bind at 1. unfold write at 1. rewrite Hf. fold f1.
        unfold bind at 1.
        assert (Hwhen : when (0 <? total)%Z
                  (print (MsgProgress (downloaded + Z.of_nat (List.length c)) total))
                  (mkWorld (<[path := f1]> (fs w)) (trace w)) = (Ok tt, w1)).
        { unfold w1, t0, when, print, emit, ret.
          destruct (0 <? total)%Z; simpl; rewrite ?app_nil_r; reflexivity. }
        rewrite Hwhen, Hrun. simpl fs. simpl trace.
        rewrite insert_insert_eq. simpl content. simpl readable.
        rewrite <- !app_assoc.
        change (read_all (c :: rest) final)
          with (let+ more := read_all rest final in Ok (c ++ more)).
        destruct (read_all rest final); reflexivity.
      * intros body.
        change (read_all (c :: rest) final)
          with (let+ more := read_all rest final in Ok (c ++ more)).
        destruct (read_all rest final) as [more|e] eqn:E; simpl; [|discriminate].
        intros [= <-]. rewrite (Hbody more eq_refl). reflexivity.
Qed.

Lemma handle_transport_error {A} (h : M A) (e : exn) w :
  handle [(is_URLError, fun e => print (MsgURLError e) ;;; h);
          (is_Exception, fun e => print (MsgDownloadError e) ;;; h)] e w =
  h (mkWorld (fs w) (trace w ++ [Print (transport_error_message e)])).
Proof.
  unfold handle, transport_error_message.
  destruct (is_URLError e); reflexivity.
Qed.

Lemma salient_transport_error e rest :
  salient (Print (transport_error_message e) :: rest) =
  Print (transport_error_message e) :: salient rest.
Proof. unfold transport_error_message. destruct (is_URLError e); reflexivity. Qed.

(** [download_file] on a destination that does not exist: one request;
    the file holds the whole body if the transfer completes, and there is
    no file if it fails. *)
Lemma download_file_spec url path w :
  fs w !! path = None ->
  exists t,
    match next_fetch w url with
    | Ok body =>
        download_file url path w =
        (Ok true, mkWorld (<[path := mkFile body true]> (fs w))
                          (trace w ++ Request url :: t)) /\
        salient t = [Print MsgNewline]
    | Raise e =>
        download_file url path w =
        (Ok false, mkWorld (fs w) (trace w ++ Request url :: t)) /\
        (salient t = [Print (transport_error_message e)] \/
         salient t = [Print (transport_error_message e); Remove path])
    end.
Proof.
  intros Hnone. unfold next_fetch, fetch_result.
  destruct (server (List.length (requests (trace w))) url) as [e|r] eqn:Hs.
  - exists [Print (transport_error_message e)].
    unfold download_file. cbv zeta.
    unfold try_except at 1. unfold bind at 1. unfold urlopen at 1. rewrite Hs.
    rewrite handle_transport_error. unfold_monad. rewrite Hnone. simpl.
    rewrite <- app_assoc. split; [reflexivity | left; exact (salient_transport_error e [])].
  - destruct (total_size_of r) as [total|e] eqn:Hts; simpl rbind.
    + set (w1 := mkWorld (<[path := mkFile [] true]> (fs w))
                         (trace w ++ [Request url])).
      assert (Hf : fs w1 !! path = Some (mkFile [] true)) by apply lookup_insert_eq.
      assert (Hstart :
        (let* response := urlopen url in
         let* total_size := lift (total_size_of response) in
         open_wb path ;;;
         transfer path total_size 0 (chunks response) (abort response) ;;;
         print MsgNewline ;;;
         ret true) w =
        match transfer path total 0 (chunks r) (abort r) w1 with
        | (Ok _, w2) => (Ok true, mkWorld (fs w2) (trace w2 ++ [Print MsgNewline]))
        | (Raise e, w2) => (Raise e, w2)
        end).
      { unfold bind at 1. unfold urlopen at 1. rewrite Hs.
        unfold bind at 1. unfold lift at 1. rewrite Hts.
        unfold bind at 1. unfold open_wb at 1. simpl fs. simpl trace.
        rewrite Hnone. unfold bind at 1. fold w1.
        destruct (transfer path total 0 (chunks r) (abort r) w1) as [[[]|e] w2];
          reflexivity. }
      destruct (transfer_spec path total (chunks r) (abort r) 0%Z w1 _ Hf)
        as (t & data & Hsal & Hrun & Hbody).
      destruct (read_all (chunks r) (abort r)) as [body|e].
      * exists (t ++ [Print MsgNewline]).
        unfold download_file. cbv zeta. unfold try_except at 1.
        rewrite Hstart, Hrun. clear Hstart Hrun.
        rewrite (Hbody body eq_refl). simpl.
        rewrite insert_insert_eq, <- !app_assoc. simpl.
        split; [reflexivity|]. rewrite salient_app, Hsal. reflexivity.
      * exists (t ++ [Print (transport_error_message e); Remove path]).
        unfold download_file. cbv zeta. unfold try_except at 1.
        rewrite Hstart, Hrun. clear Hstart Hrun.
        rewrite handle_transport_error.
        unfold bind at 1. unfold os_path_exists at 1. simpl fs.
        rewrite lookup_insert_eq.
        rewrite bool_decide_eq_true_2 by eauto.
        unfold when, bind, os_remove. simpl fs. rewrite lookup_insert_eq.
        unfold ret. simpl.
        rewrite insert_insert_eq, delete_insert_eq, (delete_id _ _ Hnone).
        rewrite <- !app_assoc. simpl.
        split; [reflexivity|]. right.
        rewrite salient_app, Hsal. exact (salient_transport_error e [Remove path]).
    + exists [Print (transport_error_message e)].
      unfold download_file. cbv zeta.
      unfold try_except at 1. unfold bind at 1. unfold urlopen at 1. rewrite Hs.
      unfold bind at 1. unfold lift at 1. rewrite Hts.
      rewrite handle_transport_error. unfold_monad. rewrite Hnone. simpl.
      rewrite <- app_assoc. split; [reflexivity | left; exact (salient_transport_error e [])].
Qed.

Lemma next_fetch_quiet w m t url :
  requests t = [] ->
  next_fetch (mkWorld m (trace w ++ t)) url = next_fetch w url.
Proof.
  intros Ht. unfold next_fetch. simpl. rewrite requests_app, Ht, app_nil_r.
  reflexivity.
Qed.

Lemma salient_verification body expected :
  salient (verification_report body expected) = verification_report body expected.
Proof. unfold verification_report. destruct (String.eqb _ _); reflexivity. Qed.

Lemma download_and_validate_spec url path image w :
  fs w !! path = None ->
  exists t cleanup,
    (cleanup = [] \/ cleanup = [Remove path]) /\
    download_and_validate url path image w =
    (Ok tt, mkWorld (fs_after_fetch (fs w) path (next_fetch w url)) (trace w ++ t)) /\
    salient t = download_report image url (next_fetch w url) cleanup.
Proof.
  intros Hnone.
  set (w0 := mkWorld (fs w) (trace w ++ [Print (MsgDownloading (Image.filename image))])).
  assert (Hnone0 : fs w0 !! path = None) by exact Hnone.
  destruct (download_file_spec url path w0 Hnone0) as [t Ht].
  assert (Hnext : next_fetch w0 url = next_fetch w url)
    by (apply next_fetch_quiet; reflexivity).
  rewrite Hnext in Ht.
  assert (Hstart : download_and_validate url path image w =
            match download_file url path w0 with
            | (Ok true, w1) =>
                (let* valid := validate_md5 path (Image.md5 image) in
                 if valid then print MsgMD5Passed else print MsgMD5Failed)
                  (mkWorld (fs w1) (trace w1 ++ [Print MsgDownloadedSuccessfully]))
            | (Ok false, w1) =>
                (Ok tt, mkWorld (fs w1) (trace w1 ++ [Print MsgDownloadFailed]))
            | (Raise e, w1) => (Raise e, w1)
            end).
  { unfold download_and_validate. unfold bind at 1. unfold print at 1, emit at 1.
    fold w0. unfold bind at 1.
    destruct (download_file url path w0) as [[[]|e] w1]; reflexivity. }
  rewrite Hstart. clear Hstart.
  destruct (next_fetch w url) as [body|e].
  - destruct Ht as [-> Hsal]. exists (Print (MsgDownloading (Image.filename image))
              :: Request url :: t ++ Print MsgDownloadedSuccessfully
              :: verification_report body (Image.md5 image)), [].
    split; [left; reflexivity|]. split.
    + unfold bind. rewrite validate_md5_spec.
      unfold validate_trace, md5_error_trace, digest_matches, computed_digest,
        read_file, verification_report.
      simpl. rewrite lookup_insert_eq. simpl.
      destruct (String.eqb (lower (hexdigest body)) (lower (Image.md5 image)));
        unfold print, emit; simpl; rewrite <- !app_assoc; simpl;
        rewrite <- ?app_assoc; reflexivity.
    + unfold download_report.
      change (Print (MsgDownloading (Image.filename image)) :: Request url ::
              t ++ Print MsgDownloadedSuccessfully ::
              verification_report body (Image.md5 image))
        with ([Print (MsgDownloading (Image.filename image)); Request url] ++
              t ++ Print MsgDownloadedSuccessfully ::
              verification_report body (Image.md5 image)).
      rewrite !salient_app, Hsal.
      change (salient (Print MsgDownloadedSuccessfully ::
                       verification_report body (Image.md5 image)))
        with (Print MsgDownloadedSuccessfully ::
              salient (verification_report body (Image.md5 image))).
      rewrite salient_verification. reflexivity.
  - destruct Ht as [-> Hsal].
    exists (Print (MsgDownloading (Image.filename image))
              :: Request url :: t ++ [Print MsgDownloadFailed]).
    exists (match salient t with _ :: c => c | [] => [] end).
    split; [destruct Hsal as [-> | ->]; [left|right]; reflexivity|]. split.
    + simpl. rewrite (delete_id _ _ Hnone), <- !app_assoc. reflexivity.
    + unfold download_report.
      change (Print (MsgDownloading (Image.filename image)) :: Request url ::
              t ++ [Print MsgDownloadFailed])
        with ([Print (MsgDownloading (Image.filename image)); Request url] ++
              t ++ [Print MsgDownloadFailed]).
      rewrite !salient_app.
      destruct Hsal as [-> | ->]; reflexivity.
Qed.

Lemma requests_validate_trace w path expected :
  requests (validate_trace w path expected) = [].
Proof.
  unfold validate_trace, md5_error_trace. rewrite requests_app.
  destruct (fs w !! path) as [[? []]|]; destruct (digest_matches w path expected);
    reflexivity.
Qed.

Lemma salient_validate_trace w path expected :
  salient (validate_trace w path expected) = validate_trace w path expected.
Proof.
  unfold validate_trace, md5_error_trace. rewrite salient_app.
  destruct (fs w !! path) as [[? []]|]; destruct (digest_matches w path expected);
    reflexivity.
Qed.

Lemma fs_after_fetch_delete m path outcome :
  fs_after_fetch (delete path m) path outcome = fs_after_fetch m path outcome.
Proof.
  destruct outcome; simpl; [apply insert_delete_eq | apply delete_delete_eq].
Qed.

Lemma create_directory_spec path w :
  create_directory path w = (Ok true, mkWorld (fs w) (trace w ++ [Mkdir path])).
Proof. reflexivity. Qed.

(** The loop body on a destination that is already satisfied. *)
Lemma download_image_satisfied self release image w :
  let path := construct_output_path self release image in
  already_satisfied w path (Image.md5 image) = true ->
  download_image self release image w =
  (Ok tt,
   mkWorld (fs w)
     (trace w ++
      Mkdir (os_path_dirname path) :: Print (MsgChecking (Image.filename image)) ::
      md5_error_trace w path ++ [Print MsgAlreadyDownloaded])).
Proof.
  intros path. unfold already_satisfied. intros [Hex Hdig]%andb_true_iff.
  unfold download_image. cbv zeta. fold path.
  unfold bind at 1. rewrite create_directory_spec.
  unfold bind at 1. unfold os_path_exists at 1. cbn [fs trace].
  rewrite Hex.
  unfold bind at 1. unfold print at 1, emit at 1. cbn [fs trace].
  unfold bind at 1. rewrite validate_md5_spec.
  unfold validate_trace, digest_matches, computed_digest, md5_error_trace in *.
  cbn [fs trace]. rewrite Hdig.
  unfold print, emit. cbn [fs trace]. rewrite app_nil_r, <- !app_assoc. reflexivity.
Qed.

(** The loop body on a destination that is absent or stale. *)
Lemma download_image_fetch self release image w :
  let path := construct_output_path self release image in
  let url := construct_url release image in
  already_satisfied w path (Image.md5 image) = false ->
  exists t cleanup,
    (cleanup = [] \/ cleanup = [Remove path]) /\
    download_image self release image w =
    (Ok tt, mkWorld (fs_after_fetch (fs w) path (next_fetch w url)) (trace w ++ t)) /\
    salient t = stale_report w image path
                ++ download_report image url (next_fetch w url) cleanup.
Proof.
  intros path url Hsat.
  set (t0 := stale_report w image path).
  set (w1 := mkWorld (delete path (fs w)) (trace w ++ t0)).
  assert (Hstart : download_image self release image w =
                   download_and_validate url path image w1).
  { unfold download_image. cbv zeta. fold path. fold url.
    unfold bind at 1. rewrite create_directory_spec.
    unfold bind at 1. unfold os_path_exists at 1. cbn [fs trace].
    unfold w1, t0, stale_report. unfold already_satisfied in Hsat.
    destruct (fs w !! path) as [f|] eqn:Hf.
    - rewrite bool_decide_eq_true_2 in * by eauto. simpl in Hsat.
      unfold bind at 1. unfold print at 1, emit at 1. cbn [fs trace].
      unfold bind at 1. rewrite validate_md5_spec.
      assert (Hdm : digest_matches
                (mkWorld (fs w)
                   ((trace w ++ [Mkdir (os_path_dirname path)]) ++
                    [Print (MsgChecking (Image.filename image))]))
                path (Image.md5 image) = false) by exact Hsat.
      rewrite Hdm.
      unfold bind at 1. unfold print at 1, emit at 1.
      unfold bind at 1. unfold os_remove at 1. cbn [fs trace]. rewrite Hf.
      cbn [fs trace]. f_equal.
      unfold validate_trace, digest_matches, computed_digest, md5_error_trace.
      cbn [fs trace].
      rewrite <- !app_assoc. reflexivity.
    - rewrite bool_decide_eq_false_2 by (intros [? ?]; discriminate).
      rewrite (delete_id _ _ Hf). reflexivity. }
  assert (Hnone : fs w1 !! path = None) by apply lookup_delete_eq.
  destruct (download_and_validate_spec url path image w1 Hnone)
    as (t & cleanup & Hc & Hrun & Hsal).
  assert (Hreq : requests t0 = []).
  { unfold t0, stale_report. destruct (fs w !! path); [|reflexivity].
    simpl. rewrite requests_app, requests_validate_trace. reflexivity. }
  assert (Hnext : next_fetch w1 url = next_fetch w url)
    by (apply next_fetch_quiet; exact Hreq).
  rewrite Hnext in Hrun, Hsal.
  exists (t0 ++ t), cleanup. split; [exact Hc|]. split.
  - rewrite Hstart, Hrun. simpl. rewrite fs_after_fetch_delete, <- app_assoc.
    reflexivity.
  - rewrite salient_app, Hsal. f_equal.
    unfold t0, stale_report. destruct (fs w !! path); [|reflexivity].
    change (salient (Mkdir (os_path_dirname path) ::
                     Print (MsgChecking (Image.filename image)) ::
                     validate_trace w path (Image.md5 image) ++
                     [Print MsgInvalidRedownloading; Remove path]))
      with (Mkdir (os_path_dirname path) ::
            Print (MsgChecking (Image.filename image)) ::
            salient (validate_trace w path (Image.md5 image) ++
                     [Print MsgInvalidRedownloading; Remove path])).
    rewrite salient_app, salient_validate_trace. reflexivity.
Qed.

Lemma requests_salient t : requests (salient t) = requests t.
Proof.
  induction t as [|e t IH]; [reflexivity|].
  destruct e as [m| | |]; try destruct m; simpl; rewrite ?IH; reflexivity.
Qed.

Lemma verdicts_salient t : verdicts (salient t) = verdicts t.
Proof.
  induction t as [|e t IH]; [reflexivity|].
  destruct e as [m| | |]; try destruct m; simpl; rewrite ?IH; reflexivity.
Qed.

Lemma mkdirs_salient t : mkdirs (salient t) = mkdirs t.
Proof.
  induction t as [|e t IH]; [reflexivity|].
  destruct e as [m| | |]; try destruct m; simpl; rewrite ?IH; reflexivity.
Qed.


Lemma stale_report_summary w image path :
  requests (stale_report w image path) = [] /\
  verdicts (stale_report w image path) = [] /\
  mkdirs (stale_report w image path) = [os_path_dirname path].
Proof.
  unfold stale_report, validate_trace, md5_error_trace.
  destruct (fs w !! path) as [[? []]|];
    destruct (digest_matches w path (Image.md5 image)); repeat split; reflexivity.
Qed.

Lemma download_report_summary image url path outcome cleanup :
  cleanup = [] \/ cleanup = [Remove path] ->
  requests (download_report image url outcome cleanup) = [url] /\
  mkdirs (download_report image url outcome cleanup) = [] /\
  verdicts (download_report image url outcome cleanup) =
  [Print match outcome with
         | Ok body =>
             if String.eqb (lower (hexdigest body)) (lower (Image.md5 image))
             then MsgMD5Passed else MsgMD5Failed
         | Raise _ => MsgDownloadFailed
         end].
Proof.
  unfold download_report, verification_report, transport_error_message.
  intros [-> | ->]; destruct outcome as [body|e];
    try destruct (String.eqb (lower (hexdigest body)) (lower (Image.md5 image)));
    try destruct (is_URLError e); repeat split; reflexivity.
Qed.

(** What every run of the loop body does, whatever happens to the image:
    it returns, having created the parent directory, reached one verdict
    and made at most one request. *)
Lemma download_image_summary self release image w :
  exists t,
    download_image self release image w =
    (Ok tt, mkWorld (image_files w self release image) (trace w ++ t)) /\
    mkdirs t = [os_path_dirname (construct_output_path self release image)] /\
    verdicts t = [Print (image_verdict w self release image)] /\
    requests t = image_requests w self release image.
Proof.
  unfold image_verdict, image_requests, image_files. cbv zeta.
  destruct (already_satisfied w (construct_output_path self release image)
              (Image.md5 image)) eqn:Hsat.
  - eexists. split; [apply download_image_satisfied; exact Hsat|].
    unfold md5_error_trace.
    destruct (fs w !! construct_output_path self release image) as [[? []]|];
      repeat split; reflexivity.
  - destruct (download_image_fetch self release image w Hsat)
      as (t & cleanup & Hc & Hrun & Hsal).
    destruct (stale_report_summary w image (construct_output_path self release image))
      as (Hr1 & Hv1 & Hm1).
    destruct (download_report_summary image (construct_url release image) _
                (next_fetch w (construct_url release image)) cleanup Hc)
      as (Hr2 & Hm2 & Hv2).
    exists t. split; [exact Hrun|].
    rewrite <- (mkdirs_salient t), <- (verdicts_salient t), <- (requests_salient t).
    rewrite Hsal, mkdirs_app, verdicts_app, requests_app.
    rewrite Hr1, Hv1, Hm1, Hr2, Hv2, Hm2. repeat split; reflexivity.
Qed.

Lemma already_satisfied_true w path expected :
  is_Some (fs w !! path) ->
  lower (computed_digest w path) = lower expected ->
  already_satisfied w path expected = true.
Proof.
  intros Hex Hdig. unfold already_satisfied, digest_matches.
  rewrite bool_decide_eq_true_2 by exact Hex.
  rewrite Hdig, String.eqb_refl. reflexivity.
Qed.




(** C3.  When the destination exists and its digest equals the expected
    one up to the case of the letters, the loop body makes no request,
    reports the image as already downloaded, removes nothing and leaves
    the files as they were. *)
Theorem valid_file_is_skipped self release image w :
  let path := construct_output_path self release image in
  is_Some (fs w !! path) ->
  lower (computed_digest w path) = lower (Image.md5 image) ->
  exists w' t,
    download_image self release image w = (Ok tt, w') /\
    trace w' = trace w ++ t ++ [Print MsgAlreadyDownloaded] /\
    requests (trace w') = requests (trace w) /\
    verdicts (t ++ [Print MsgAlreadyDownloaded]) = [Print MsgAlreadyDownloaded] /\
    ~ In (Remove path) t /\
    fs w' = fs w.
Proof.
  intros path Hex Hdig.
  pose proof (download_image_satisfied self release image w
                (already_satisfied_true _ _ _ Hex Hdig)) as Hrun.
  fold path in Hrun.
  eexists. exists (Mkdir (os_path_dirname path) ::
                   Print (MsgChecking (Image.filename image)) ::
                   md5_error_trace w path).
  split; [exact Hrun|]. cbn [fs trace]. unfold md5_error_trace.
  split; [reflexivity|].
  destruct (fs w !! path) as [[? []]|]; simpl;
    (split; [rewrite requests_app; simpl; apply app_nil_r|]);
    (split; [reflexivity|]); (split; [|reflexivity]);
    intros H; repeat (destruct H as [H|H]; [discriminate|]); exact H.
Qed.







(** * Properties of the paths *)

#[local] Arguments String.append : simpl nomatch.

Lemma append_assoc (a b c : string) :
  String.append (String.append a b) c = String.append a (String.append b c).
Proof. induction a as [|x a IH]; simpl; congruence. Qed.

Lemma append_nonempty (a b : string) :
  b <> "" -> String.eqb (String.append a b) "" = false.
Proof.
  intros Hb. apply String.eqb_neq. destruct a; simpl; [exact Hb | discriminate].
Qed.

Lemma endswith_sep_append (a b : string) :
  b <> "" -> endswith_sep (String.append a b) = endswith_sep b.
Proof.
  intros Hb. induction a as [|x a IH]; simpl; [reflexivity|].
  destruct (String.append a b) eqn:E; [|exact IH].
  destruct a; simpl in E; [contradiction | discriminate].
Qed.

Lemma join2_absolute path b : startswith_sep b = true -> join2 path b = b.
Proof. unfold join2. intros ->. reflexivity. Qed.

(** Joining a component that is not absolute to a path that keeps its
    level inserts exactly one separator. *)
Lemma join2_level path b :
  keeps_level path = true -> startswith_sep b = false ->
  join2 path b = String.append path (String.append "/" b).
Proof.
  unfold keeps_level, join2. intros [H1 H2]%andb_true_iff ->.
  apply negb_true_iff in H1, H2. rewrite H1, H2. reflexivity.
Qed.

Lemma keeps_level_join path b :
  keeps_level b = true ->
  keeps_level (String.append path (String.append "/" b)) = true.
Proof.
  unfold keeps_level. intros [H1 H2]%andb_true_iff.
  apply negb_true_iff in H1, H2. apply String.eqb_neq in H1.
  rewrite append_nonempty by discriminate.
  rewrite endswith_sep_append by discriminate.
  simpl. destruct b; [contradiction|]. rewrite H2. reflexivity.
Qed.

Lemma join2_suffix path b :
  startswith_sep b = false ->
  exists front, join2 path b = String.append front b.
Proof.
  unfold join2. intros ->.
  destruct (String.eqb path "" || endswith_sep path).
  - exists path. reflexivity.
  - exists (String.append path "/"). exact (eq_sym (append_assoc path "/" b)).
Qed.

Lemma startswith_sep_join2 path b :
  startswith_sep path = true -> startswith_sep (join2 path b) = true.
Proof.
  unfold join2. intros Hp. destruct (startswith_sep b) eqn:Hb; [exact Hb|].
  destruct path; [discriminate|].
  destruct (String.eqb _ _ || endswith_sep _); exact Hp.
Qed.

Lemma prefix_relative base path :
  base <> "" -> startswith_sep base = false -> startswith_sep path = true ->
  String.prefix base path = false.
Proof.
  destruct base as [|c base]; [contradiction|]. intros _.
  destruct path as [|d path]; [discriminate|]. simpl.
  intros Hc Hd. apply Ascii.eqb_eq in Hd. subst d.
  destruct (ascii_dec c sep) as [->|]; [|reflexivity].
  rewrite Ascii.eqb_refl in Hc. discriminate.
Qed.


(** C9.  When the channel, the date, the revision or the file name starts
    with the separator, the destination does not depend on the base
    directory: it is an absolute path made of that component and those
    after it, and a non-empty relative base directory is not a prefix of
    it. *)
Theorem absolute_component_escapes self release image :
  any_absolute release image = true ->
  (forall self',
      construct_output_path self' release image =
      construct_output_path self release image) /\
  startswith_sep (construct_output_path self release image) = true /\
  (base_directory self <> "" ->
   startswith_sep (base_directory self) = false ->
   String.prefix (base_directory self) (construct_output_path self release image)
   = false) /\
  (startswith_sep (Image.filename image) = true ->
   construct_output_path self release image = Image.filename image) /\
  (startswith_sep (Release.revision release) = true ->
   construct_output_path self release image =
   os_path_join (Release.revision release) [Image.filename image]) /\
  (startswith_sep (Release.date release) = true ->
   construct_output_path self release image =
   os_path_join (Release.date release)
     [Release.revision release; Image.filename image]) /\
  (startswith_sep (Release.channel release) = true ->
   construct_output_path self release image =
   os_path_join (Release.channel release)
     [Release.date release; Release.revision release; Image.filename image]).
Proof.
  intros Habs.
  assert (Hcases :
    (startswith_sep (Image.filename image) = true ->
     forall s, construct_output_path s release image = Image.filename image) /\
    (startswith_sep (Release.revision release) = true ->
     forall s, construct_output_path s release image =
               os_path_join (Release.revision release) [Image.filename image]) /\
    (startswith_sep (Release.date release) = true ->
     forall s, construct_output_path s release image =
               os_path_join (Release.date release)
                 [Release.revision release; Image.filename image]) /\
    (startswith_sep (Release.channel release) = true ->
     forall s, construct_output_path s release image =
               os_path_join (Release.channel release)
                 [Release.date release; Release.revision release;
                  Image.filename image])).
  { unfold construct_output_path, os_path_join. simpl.
    repeat split; intros H s; rewrite (join2_absolute _ _ H); reflexivity. }
  destruct Hcases as (Hf & Hr & Hd & Hc).
  assert (Hindep : forall s,
             construct_output_path s release image =
             construct_output_path self release image).
  { intros s. unfold any_absolute in Habs.
    apply orb_true_iff in Habs as [Habs|H]; [|rewrite (Hf H s), (Hf H self); reflexivity].
    apply orb_true_iff in Habs as [Habs|H]; [|rewrite (Hr H s), (Hr H self); reflexivity].
    apply orb_true_iff in Habs as [H|H];
      [rewrite (Hc H s), (Hc H self) | rewrite (Hd H s), (Hd H self)]; reflexivity. }
  assert (Hstart : startswith_sep (construct_output_path self release image) = true).
  { unfold any_absolute in Habs.
    apply orb_true_iff in Habs as [Habs|H]; [|rewrite (Hf H self); exact H].
    apply orb_true_iff in Habs as [Habs|H];
      [|rewrite (Hr H self); unfold os_path_join; simpl;
        apply startswith_sep_join2; exact H].
    apply orb_true_iff in Habs as [H|H];
      [rewrite (Hc H self) | rewrite (Hd H self)];
      unfold os_path_join; simpl; repeat apply startswith_sep_join2; exact H. }
  split; [exact Hindep|]. split; [exact Hstart|]. split.
  - intros Hne Hrel. apply prefix_relative; assumption.
  - repeat split; intros H; [apply Hf | apply Hr | apply Hd | apply Hc]; exact H.
Qed.

(** * Properties of the traversal and of the driver *)

Lemma for_treats {X} (body : X -> M unit) (f : X -> list string) :
  treats body f -> treats (fun xs => for_ xs body) (flat_map f).
Proof.
  intros Hbody xs. induction xs as [|x xs IH]; intros w.
  - exists [], (fs w). simpl. unfold ret. rewrite world_trace_nil. auto.
  - destruct (Hbody x w) as (t1 & m1 & Hrun1 & Hm1 & Hv1 & Hr1).
    destruct (IH (mkWorld m1 (trace w ++ t1))) as (t2 & m2 & Hrun2 & Hm2 & Hv2 & Hr2).
    exists (t1 ++ t2), m2. simpl for_. unfold bind. rewrite Hrun1, Hrun2.
    cbn [fs trace flat_map].
    rewrite mkdirs_app, verdicts_app, requests_app, map_app, !length_app, app_assoc.
    rewrite Hm1, Hm2, Hv1, Hv2. repeat split; try reflexivity. lia.
Qed.

Lemma header_treats {X} (h : X -> message) (body : X -> M unit) (f : X -> list string) :
  (forall x, is_verdict (Print (h x)) = false) ->
  treats body f -> treats (fun x => print (h x) ;;; body x) f.
Proof.
  intros Hh Hbody x w.
  destruct (Hbody x (mkWorld (fs w) (trace w ++ [Print (h x)])))
    as (t & m & Hrun & Hm & Hv & Hr).
  exists (Print (h x) :: t), m. unfold bind, print, emit. rewrite Hrun.
  cbn [fs trace]. rewrite <- app_assoc.
  unfold verdicts in *. cbn [List.filter]. rewrite Hh.
  repeat split; assumption.
Qed.

Lemma download_image_treats self release :
  treats (download_image self release)
         (fun image => [construct_output_path self release image]).
Proof.
  intros image w.
  destruct (download_image_summary self release image w) as (t & Hrun & Hm & Hv & Hr).
  exists t, (image_files w self release image).
  rewrite Hm, Hv, Hr. unfold image_requests.
  destruct (already_satisfied _ _ _); repeat split; simpl; auto.
Qed.

Lemma flat_map_singleton {A B} (f : A -> B) l : flat_map (fun x => [f x]) l = map f l.
Proof. induction l as [|x l IH]; simpl; [reflexivity | rewrite IH; reflexivity]. Qed.

Lemma download_all_treats self :
  treats (download_all self) (destinations self).
Proof.
  assert (Hdevices : treats
            (fun devices =>
               for_ devices (fun device =>
                 print (MsgDevice (Device.productname device) (Device.id device)) ;;;
                 for_ (Device.hardware device) (fun hardware =>
                   print (MsgHardware (Hardware.revision hardware)) ;;;
                   for_ (Hardware.releases hardware) (fun release =>
                     print (MsgRelease (Release.channel release) (Release.date release)
                              (Release.revision release)) ;;;
                     download_release self release (Device.productname device)))))
            (flat_map (device_destinations self))).
  { apply (for_treats _ (device_destinations self)).
    apply (header_treats (fun d => MsgDevice (Device.productname d) (Device.id d))
             (fun device =>
                for_ (Device.hardware device) (fun hardware =>
                  print (MsgHardware (Hardware.revision hardware)) ;;;
                  for_ (Hardware.releases hardware) (fun release =>
                    print (MsgRelease (Release.channel release) (Release.date release)
                             (Release.revision release)) ;;;
                    download_release self release (Device.productname device)))));
      [reflexivity|].
    intros device.
    apply (for_treats _ (hardware_destinations self)).
    apply (header_treats (fun h => MsgHardware (Hardware.revision h))
             (fun hardware =>
                for_ (Hardware.releases hardware) (fun release =>
                  print (MsgRelease (Release.channel release) (Release.date release)
                           (Release.revision release)) ;;;
                  download_release self release (Device.productname device))));
      [reflexivity|].
    intros hardware.
    apply (for_treats _ (release_destinations self)).
    apply (header_treats
             (fun r => MsgRelease (Release.channel r) (Release.date r) (Release.revision r))
             (fun release => download_release self release (Device.productname device)));
      [reflexivity|].
    intros release w. unfold download_release, release_destinations.
    rewrite <- flat_map_singleton.
    apply (for_treats _ _ (download_image_treats self release)). }
  intros index w.
  destruct (Hdevices (FirmwareIndex.devices index)
              (mkWorld (fs w) (trace w ++ [Print (MsgStarting (FirmwareIndex.revision index))])))
    as (t & m & Hrun & Hm & Hv & Hr).
  exists (Print (MsgStarting (FirmwareIndex.revision index)) :: t ++ [Print MsgCompleted]), m.
  unfold download_all. unfold bind at 1. unfold print at 1, emit at 1.
  unfold bind at 1. rewrite Hrun. unfold print, emit. cbn [fs trace].
  rewrite <- !app_assoc. split; [reflexivity|].
  change (Print (MsgStarting (FirmwareIndex.revision index)) :: t ++ [Print MsgCompleted])
    with ([Print (MsgStarting (FirmwareIndex.revision index))] ++ t ++ [Print MsgCompleted]).
  rewrite !mkdirs_app, !verdicts_app, !requests_app, !length_app.
  simpl. rewrite app_nil_r, Hm, Hv. unfold destinations.
  repeat split; try reflexivity; lia.
Qed.



Lemma length_flat_map_ext {A B C} (f : A -> list B) (g : A -> list C) l :
  (forall x, List.length (f x) = List.length (g x)) ->
  List.length (flat_map f l) = List.length (flat_map g l).
Proof.
  intros H. induction l as [|x l IH]; simpl; [reflexivity|].
  rewrite !length_app, H, IH. reflexivity.
Qed.

Lemma flat_map_flat_map {A B C} (f : B -> list C) (g : A -> list B) l :
  flat_map f (flat_map g l) = flat_map (fun x => flat_map f (g x)) l.
Proof.
  induction l as [|x l IH]; simpl; [reflexivity|].
  rewrite flat_map_app, IH. reflexivity.
Qed.

(** One destination per image of the index. *)
Lemma length_destinations self index :
  List.length (destinations self index) = List.length (all_images index).
Proof.
  unfold destinations, all_images, all_releases, all_hardware.
  rewrite !flat_map_flat_map.
  apply length_flat_map_ext. intros d. unfold device_destinations.
  apply length_flat_map_ext. intros h. unfold hardware_destinations.
  apply length_flat_map_ext. intros r. unfold release_destinations.
  apply length_map.
Qed.




(** * Properties beyond the claims *)

(** ** The parser reads the attributes it names, and no other *)

Lemma get_with_attribute key value e k default :
  key <> k -> get (with_attribute key value e) k default = get e k default.
Proof.
  intros Hne. unfold get, with_attribute. cbn [attrib].
  rewrite lookup_insert_ne by exact Hne. reflexivity.
Qed.

Lemma reads_false keys key k : reads keys key = false -> In k keys -> key <> k.
Proof.
  unfold reads. intros Hreads Hin ->.
  assert (Hex : existsb (String.eqb k) keys = true).
  { apply existsb_exists. exists k. split; [exact Hin | apply String.eqb_refl]. }
  congruence.
Qed.

(** X1.  An attribute whose name is not, character for character, one of
    those a parsing function reads has no effect on what it returns: the
    element parses the same with or without it, whatever its value. *)
Theorem unread_attribute_is_ignored (key value : string) (e : Element) :
  (reads image_attributes key = false ->
   _parse_image (with_attribute key value e) = _parse_image e) /\
  (reads release_attributes key = false ->
   _parse_release (with_attribute key value e) = _parse_release e) /\
  (reads hardware_attributes key = false ->
   _parse_hardware (with_attribute key value e) = _parse_hardware e) /\
  (reads device_attributes key = false ->
   _parse_device (with_attribute key value e) = _parse_device e) /\
  (reads root_attributes key = false ->
   _parse_root (with_attribute key value e) = _parse_root e).
Proof.
  clear hexdigest decode_utf8 fromstring server.
  repeat split; intros Hreads.
  - unfold _parse_image, int_attribute.
    rewrite !get_with_attribute
      by (apply (reads_false _ _ _ Hreads); simpl; tauto).
    reflexivity.
  - unfold _parse_release.
    rewrite !get_with_attribute
      by (apply (reads_false _ _ _ Hreads); simpl; tauto).
    reflexivity.
  - unfold _parse_hardware.
    rewrite !get_with_attribute
      by (apply (reads_false _ _ _ Hreads); simpl; tauto).
    reflexivity.
  - unfold _parse_device.
    rewrite !get_with_attribute
      by (apply (reads_false _ _ _ Hreads); simpl; tauto).
    reflexivity.
  - unfold _parse_root.
    rewrite !get_with_attribute
      by (apply (reads_false _ _ _ Hreads); simpl; tauto).
    reflexivity.
Qed.

(** ** The directory created for an image *)

Lemma list_ascii_of_append (a b : string) :
  list_ascii_of_string (String.append a b) =
  list_ascii_of_string a ++ list_ascii_of_string b.
Proof. induction a as [|c a IH]; simpl; [reflexivity | rewrite IH; reflexivity]. Qed.

Lemma contains_sep_forallb s :
  contains_sep s = false ->
  forallb (fun c => negb (Ascii.eqb c sep)) (list_ascii_of_string s) = true.
Proof.
  induction s as [|c s IH]; cbn [contains_sep list_ascii_of_string forallb];
    [reflexivity|].
  intros [Hc Hs]%orb_false_iff. cbv beta. rewrite Hc, (IH Hs). reflexivity.
Qed.

Lemma drop_while_app_all {X} (f : X -> bool) (l1 l2 : list X) :
  forallb f l1 = true -> drop_while f (l1 ++ l2) = drop_while f l2.
Proof.
  induction l1 as [|x l1 IH]; simpl; [reflexivity|].
  intros [Hx Hl]%andb_true_iff. rewrite Hx. exact (IH Hl).
Qed.

Lemma forallb_rev {X} (f : X -> bool) (l : list X) : forallb f (rev l) = forallb f l.
Proof.
  induction l as [|x l IH]; simpl; [reflexivity|].
  rewrite forallb_app, IH. simpl. rewrite andb_true_r. apply andb_comm.
Qed.

(** The last character of a string decides [endswith_sep]. *)
Lemma endswith_sep_rev s :
  endswith_sep s =
  match rev (list_ascii_of_string s) with
  | c :: _ => Ascii.eqb c sep
  | [] => false
  end.
Proof.
  induction s as [|c s IH]; [reflexivity|].
  destruct s as [|c' s']; [reflexivity|].
  change (endswith_sep (String c (String c' s'))) with (endswith_sep (String c' s')).
  rewrite IH.
  change (list_ascii_of_string (String c (String c' s')))
    with (c :: list_ascii_of_string (String c' s')).
  cbn [rev].
  destruct (rev (list_ascii_of_string (String c' s'))) as [|d r] eqn:E; [|reflexivity].
  apply (f_equal (@List.length ascii)) in E. rewrite length_rev in E. discriminate.
Qed.

Lemma dirname_of_joined (dir name : string) :
  keeps_level dir = true -> contains_sep name = false ->
  os_path_dirname (String.append dir (String.append "/" name)) = dir.
Proof.
  unfold keeps_level. intros [Hne Hend]%andb_true_iff Hname.
  apply negb_true_iff in Hne, Hend. apply String.eqb_neq in Hne.
  rewrite endswith_sep_rev in Hend.
  unfold os_path_dirname. rewrite !list_ascii_of_append. cbn [list_ascii_of_string].
  change ("/"%char :: list_ascii_of_string name)
    with (["/"%char] ++ list_ascii_of_string name).
  rewrite !rev_app_distr, <- app_assoc.
  rewrite drop_while_app_all
    by (rewrite forallb_rev; apply contains_sep_forallb; exact Hname).
  cbn [rev app].
  destruct (rev (list_ascii_of_string dir)) as [|c r] eqn:E.
  - apply (f_equal (@rev ascii)) in E. rewrite rev_involutive in E.
    apply (f_equal string_of_list_ascii) in E.
    rewrite string_of_list_ascii_of_string in E. simpl in E. contradiction.
  - assert (H1 : drop_while (fun c => negb (Ascii.eqb c sep)) ("/"%char :: c :: r)
                 = "/"%char :: c :: r) by reflexivity.
    assert (H2 : forallb (fun c => Ascii.eqb c sep) ("/"%char :: c :: r) = false)
      by (cbn [forallb]; rewrite Hend; reflexivity).
    assert (H3 : drop_while (fun c => Ascii.eqb c sep) ("/"%char :: c :: r) = c :: r).
    { change (drop_while (fun c => Ascii.eqb c sep) ("/"%char :: c :: r))
        with (drop_while (fun c => Ascii.eqb c sep) (c :: r)).
      cbn [drop_while]. rewrite Hend. reflexivity. }
    rewrite H1, H2, H3, <- E, rev_involutive.
    apply string_of_list_ascii_of_string.
Qed.

(** X2.  The destination always ends with the file name of the image.
    When the base directory, the channel, the date and the revision keep
    their level, none of channel, date and revision starts with a
    separator and the file name holds no separator, the directory the loop
    body creates before treating the image is base/channel/date/revision:
    the same for every image of the release. *)
Theorem destination_directory self release image :
  (exists front,
      construct_output_path self release image
      = String.append front (Image.filename image)) /\
  (keeps_level (base_directory self) = true ->
   keeps_level (Release.channel release) = true ->
   keeps_level (Release.date release) = true ->
   keeps_level (Release.revision release) = true ->
   startswith_sep (Release.channel release) = false ->
   startswith_sep (Release.date release) = false ->
   startswith_sep (Release.revision release) = false ->
   contains_sep (Image.filename image) = false ->
   os_path_dirname (construct_output_path self release image)
   = release_directory self release /\
   forall w,
     mkdirs (trace (snd (download_image self release image w)))
     = mkdirs (trace w) ++ [release_directory self release]).
Proof.
  split.
  - unfold construct_output_path, os_path_join. cbn [fold_left].
    destruct (startswith_sep (Image.filename image)) eqn:Hf.
    + exists "". rewrite (join2_absolute _ _ Hf). reflexivity.
    + apply join2_suffix. exact Hf.
  - intros Hb Hc Hd Hr Hc' Hd' Hr' Hname.
    assert (Hf' : startswith_sep (Image.filename image) = false).
    { destruct (Image.filename image) as [|c s]; [reflexivity|].
      simpl in Hname. apply orb_false_iff in Hname. apply Hname. }
    assert (Hpath : construct_output_path self release image =
                    String.append (release_directory self release)
                      (String.append "/" (Image.filename image))).
    { unfold construct_output_path, os_path_join, release_directory. cbn [fold_left].
      rewrite (join2_level _ _ Hb Hc').
      rewrite (join2_level _ _ (keeps_level_join _ _ Hc) Hd').
      rewrite (join2_level _ _ (keeps_level_join _ _ Hd) Hr').
      rewrite (join2_level _ _ (keeps_level_join _ _ Hr) Hf').
      rewrite !append_assoc. reflexivity. }
    assert (Hdir : keeps_level (release_directory self release) = true).
    { assert (Hshape : release_directory self release =
                String.append
                  (String.append (base_directory self)
                     (String.append "/" (String.append (Release.channel release)
                        (String.append "/" (Release.date release)))))
                  (String.append "/" (Release.revision release)))
        by (unfold release_directory; rewrite !append_assoc; reflexivity).
      rewrite Hshape. apply keeps_level_join. exact Hr. }
    assert (Hdirname : os_path_dirname (construct_output_path self release image)
                       = release_directory self release).
    { rewrite Hpath. apply dirname_of_joined; assumption. }
    split; [exact Hdirname|].
    intros w. destruct (download_image_summary self release image w) as (t & Hrun & Hm & _).
    rewrite Hrun. cbn [snd trace]. rewrite mkdirs_app, Hm, Hdirname. reflexivity.
Qed.


(** ** [download_file] on any destination *)





(** ** What a traversal leaves alone, and what it asks for *)

Lemma for_step {X} (x : X) (xs : list X) (body : X -> M unit) w :
  for_ (x :: xs) body w =
  match body x w with
  | (Ok _, w1) => for_ xs body w1
  | (Raise e, w1) => (Raise e, w1)
  end.
Proof. reflexivity. Qed.














(** ** Treating a destination a second time *)

(** The first treatment as the code shows it: the world it returns and the
    verdict in what it added to the trace. *)
Lemma first_treatment self release image w w1 t1 :
  download_image self release image w = (Ok tt, w1) ->
  trace w1 = trace w ++ t1 ->
  w1 = mkWorld (image_files w self release image) (trace w ++ t1) /\
  verdicts t1 = [Print (image_verdict w self release image)].
Proof.
  intros Hrun Htrace.
  destruct (download_image_summary self release image w) as (t & Hsum & _ & Hv & _).
  rewrite Hsum in Hrun. injection Hrun as <-. cbn [trace] in Htrace.
  apply app_inv_head in Htrace. subst t1. split; [reflexivity | exact Hv].
Qed.

Lemma success_satisfies self release image w tr expected :
  image_verdict w self release image = MsgMD5Passed \/
  image_verdict w self release image = MsgAlreadyDownloaded ->
  lower expected = lower (Image.md5 image) ->
  already_satisfied (mkWorld (image_files w self release image) tr)
    (construct_output_path self release image) expected = true.
Proof.
  unfold image_verdict, image_files. cbv zeta.
  destruct (already_satisfied w _ _) eqn:Hsat.
  - intros _ Hexp. unfold already_satisfied, digest_matches, computed_digest in *.
    cbn [fs]. rewrite Hexp. exact Hsat.
  - destruct (next_fetch w (construct_url release image)) as [body|e].
    + destruct (String.eqb (lower (hexdigest body)) (lower (Image.md5 image))) eqn:E;
        [|intros [H|H]; discriminate].
      intros _ Hexp. unfold already_satisfied, digest_matches, computed_digest.
      cbn [fs fs_after_fetch]. rewrite lookup_insert_eq. cbn [readable content].
      rewrite bool_decide_eq_true_2 by eauto. rewrite Hexp, E. reflexivity.
    + intros [H|H]; discriminate.
Qed.


Lemma failure_unsatisfied self release image w tr :
  image_verdict w self release image = MsgMD5Failed \/
  image_verdict w self release image = MsgDownloadFailed ->
  already_satisfied (mkWorld (image_files w self release image) tr)
    (construct_output_path self release image) (Image.md5 image) = false /\
  (image_verdict w self release image = MsgMD5Failed ->
   is_Some (image_files w self release image !! construct_output_path self release image)).
Proof.
  unfold image_verdict, image_files. cbv zeta.
  destruct (already_satisfied w _ _) eqn:Hsat; [intros [H|H]; discriminate|].
  destruct (next_fetch w (construct_url release image)) as [body|e].
  - destruct (String.eqb (lower (hexdigest body)) (lower (Image.md5 image))) eqn:E;
      [intros [H|H]; discriminate|].
    intros _. cbn [fs_after_fetch]. split.
    + unfold already_satisfied, digest_matches, computed_digest.
      cbn [fs]. rewrite lookup_insert_eq. cbn [readable content].
      rewrite E. apply andb_false_r.
    + intros _. rewrite lookup_insert_eq. eauto.
  - intros _. cbn [fs_after_fetch]. split; [|discriminate].
    unfold already_satisfied. cbn [fs]. rewrite lookup_delete_eq.
    rewrite bool_decide_eq_false_2 by (intros [? ?]; discriminate). reflexivity.
Qed.

(** The loop body on a destination that exists and is not satisfied: the
    file is removed and one request is made. *)
Lemma stale_treatment self release image w :
  is_Some (fs w !! construct_output_path self release image) ->
  already_satisfied w (construct_output_path self release image) (Image.md5 image)
  = false ->
  exists t,
    download_image self release image w =
    (Ok tt,
     mkWorld (fs_after_fetch (fs w) (construct_output_path self release image)
                (next_fetch w (construct_url release image)))
             (trace w ++ t)) /\
    requests t = [construct_url release image] /\
    In (Remove (construct_output_path self release image)) t.
Proof.
  intros [f Hf] Hsat.
  destruct (download_image_fetch self release image w Hsat)
    as (t & cleanup & Hc & Hrun & Hsal).
  destruct (stale_report_summary w image (construct_output_path self release image))
    as (Hr1 & _ & _).
  destruct (download_report_summary image (construct_url release image)
              (construct_output_path self release image)
              (next_fetch w (construct_url release image)) cleanup Hc) as (Hr2 & _ & _).
  exists t. split; [exact Hrun|]. split.
  - rewrite <- requests_salient, Hsal, requests_app, Hr1, Hr2. reflexivity.
  - assert (Hin : In (Remove (construct_output_path self release image)) (salient t)).
    { rewrite Hsal. apply in_or_app. left.
      unfold stale_report. rewrite Hf. right. right.
      apply in_or_app. right. right. left. reflexivity. }
    unfold salient in Hin. apply filter_In in Hin. apply Hin.
Qed.

(** X6.  Once an image has been treated with success (downloaded and
    validated, or found valid), any image with the same destination and the
    same expected digest up to letter case is skipped when it is treated
    next, whatever its URL: no request, no change to the files, verdict
    "already downloaded".  In particular a second treatment of the same
    image is free. *)
Theorem satisfied_destination_is_not_fetched_again
    self release1 image1 release2 image2 w w1 t1 :
  download_image self release1 image1 w = (Ok tt, w1) ->
  trace w1 = trace w ++ t1 ->
  verdicts t1 = [Print MsgMD5Passed] \/ verdicts t1 = [Print MsgAlreadyDownloaded] ->
  construct_output_path self release2 image2
  = construct_output_path self release1 image1 ->
  lower (Image.md5 image2) = lower (Image.md5 image1) ->
  exists w2 t2,
    download_image self release2 image2 w1 = (Ok tt, w2) /\
    trace w2 = trace w1 ++ t2 /\
    requests t2 = [] /\
    verdicts t2 = [Print MsgAlreadyDownloaded] /\
    fs w2 = fs w1.
Proof.
  intros Hrun Htrace Hverdict Hpath Hmd5.
  destruct (first_treatment _ _ _ _ _ _ Hrun Htrace) as (-> & Hv).
  assert (Hsuccess : image_verdict w self release1 image1 = MsgMD5Passed \/
                     image_verdict w self release1 image1 = MsgAlreadyDownloaded).
  { rewrite Hv in Hverdict. destruct Hverdict as [[= H]|[= H]]; auto. }
  pose proof (success_satisfies self release1 image1 w (trace w ++ t1)
                (Image.md5 image2) Hsuccess Hmd5) as Hsat.
  rewrite <- Hpath in Hsat.
  set (W := mkWorld (image_files w self release1 image1) (trace w ++ t1)) in *.
  destruct (download_image_summary self release2 image2 W)
    as (t2 & Hrun2 & _ & Hv2 & Hr2).
  unfold image_verdict, image_requests in Hv2, Hr2.
  unfold image_files in Hrun2. cbv zeta in Hrun2.
  rewrite Hsat in Hrun2, Hv2, Hr2.
  eexists. exists t2. split; [exact Hrun2|]. cbn [fs trace]. auto.
Qed.

(** X7.  After a treatment that failed (the transfer failed, or the digest
    of what was received is wrong) the next treatment of the same image
    makes one request for its URL again; when a file with a wrong digest
    was kept, that file is removed first. *)
Theorem failed_image_is_fetched_again self release image w w1 t1 :
  download_image self release image w = (Ok tt, w1) ->
  trace w1 = trace w ++ t1 ->
  verdicts t1 = [Print MsgMD5Failed] \/ verdicts t1 = [Print MsgDownloadFailed] ->
  exists w2 t2,
    download_image self release image w1 = (Ok tt, w2) /\
    trace w2 = trace w1 ++ t2 /\
    requests t2 = [construct_url release image] /\
    (verdicts t1 = [Print MsgMD5Failed] ->
     In (Remove (construct_output_path self release image)) t2).
Proof.
  intros Hrun Htrace Hverdict.
  destruct (first_treatment _ _ _ _ _ _ Hrun Htrace) as (-> & Hv).
  assert (Hfailure : image_verdict w self release image = MsgMD5Failed \/
                     image_verdict w self release image = MsgDownloadFailed).
  { rewrite Hv in Hverdict. destruct Hverdict as [[= H]|[= H]]; auto. }
  destruct (failure_unsatisfied self release image w (trace w ++ t1) Hfailure)
    as (Hsat & Hfile).
  set (W := mkWorld (image_files w self release image) (trace w ++ t1)) in *.
  destruct (download_image_summary self release image W)
    as (t2 & Hrun2 & _ & _ & Hr2).
  unfold image_requests in Hr2. rewrite Hsat in Hr2.
  eexists. exists t2. split; [exact Hrun2|]. cbn [fs trace].
  split; [reflexivity|]. split; [exact Hr2|].
  intros Hfailed. rewrite Hv in Hfailed. injection Hfailed as Hfailed.
  destruct (stale_treatment self release image W (Hfile Hfailed) Hsat)
    as (t & Hrun3 & _ & Hin).
  rewrite Hrun3 in Hrun2. injection Hrun2 as _ Ht. apply app_inv_head in Ht.
  subst t2. exact Hin.
Qed.



(** ** Progress reports of a transfer *)





(** ** [validate_md5] and [download_index_xml] as their callers see them *)

(** X10.  [validate_md5] never raises, not even on a missing or unreadable
    file; it only prints: the files stay as they are and nothing is
    requested, created or removed.  Its answer is true exactly when the
    computed and the expected digest are equal once both are in lower
    case, so two expected values that differ only in the case of their
    letters get the same answer. *)
Theorem validate_md5_only_checks path expected w :
  exists t,
    validate_md5 path expected w =
    (Ok (String.eqb (lower (computed_digest w path)) (lower expected)),
     mkWorld (fs w) (trace w ++ t)) /\
    Forall (fun e => exists m, e = Print m) t /\
    forall expected',
      lower expected' = lower expected ->
      fst (validate_md5 path expected' w) = fst (validate_md5 path expected w).
Proof.
  exists (validate_trace w path expected). split; [apply validate_md5_spec|]. split.
  - unfold validate_trace, md5_error_trace. apply Forall_app. split.
    + destruct (fs w !! path) as [[? []]|]; repeat constructor; eauto.
    + destruct (digest_matches w path expected); repeat constructor; eauto.
  - intros expected' Hcase. rewrite !validate_md5_spec. cbn [fst].
    unfold digest_matches. rewrite Hcase. reflexivity.
Qed.



(** ** A mirror that is up to date *)

Lemma already_satisfied_files w w' path expected :
  fs w = fs w' -> already_satisfied w path expected = already_satisfied w' path expected.
Proof.
  intros H. unfold already_satisfied, digest_matches, computed_digest.
  rewrite H. reflexivity.
Qed.

Lemma for_rests {X} m (body : X -> M unit) (ok : X -> bool) :
  rests m body ok -> rests m (fun xs => for_ xs body) (forallb ok).
Proof.
  intros Hbody xs. induction xs as [|x xs IH]; intros w Hok Hfs.
  - exists []. cbn [for_]. unfold ret. rewrite app_nil_r, <- Hfs, world_eta.
    repeat split. constructor.
  - cbn [forallb] in Hok. apply andb_true_iff in Hok as [Hx Hxs].
    destruct (Hbody x w Hx Hfs) as (t1 & Hrun1 & Hr1 & Hv1).
    destruct (IH (mkWorld m (trace w ++ t1)) Hxs eq_refl) as (t2 & Hrun2 & Hr2 & Hv2).
    exists (t1 ++ t2). rewrite for_step, Hrun1, Hrun2. cbn [trace].
    rewrite <- app_assoc, requests_app, Hr1, Hr2, verdicts_app.
    repeat split. apply Forall_app. split; assumption.
Qed.

Lemma header_rests {X} m (h : X -> message) (body : X -> M unit) (ok : X -> bool) :
  (forall x, is_verdict (Print (h x)) = false) ->
  rests m body ok -> rests m (fun x => print (h x) ;;; body x) ok.
Proof.
  intros Hh Hbody x w Hok Hfs.
  destruct (Hbody x (mkWorld (fs w) (trace w ++ [Print (h x)])) Hok Hfs)
    as (t & Hrun & Hr & Hv).
  exists (Print (h x) :: t). unfold bind, print, emit. rewrite Hrun. cbn [trace].
  rewrite <- app_assoc. split; [reflexivity|]. split; [exact Hr|].
  unfold verdicts in *. cbn [List.filter]. rewrite Hh. exact Hv.
Qed.

Lemma download_image_rests self release w0 :
  rests (fs w0) (download_image self release)
        (fun i => already_satisfied w0 (construct_output_path self release i) (Image.md5 i)).
Proof.
  intros image w Hok Hfs.
  rewrite (already_satisfied_files w0 w _ _ (eq_sym Hfs)) in Hok.
  rewrite (download_image_satisfied self release image w Hok), Hfs.
  eexists. split; [reflexivity|].
  unfold md5_error_trace.
  destruct (fs w !! construct_output_path self release image) as [[? []]|];
    (split; [reflexivity|]); repeat constructor.
Qed.

(** X12.  When every image of the index already has a valid file at its
    destination, the traversal makes no request and leaves the files as
    they are; it returns after reporting each image as already
    downloaded. *)
Theorem up_to_date_mirror_is_left_alone self index w :
  up_to_date self index w = true ->
  exists t,
    download_all self index w = (Ok tt, mkWorld (fs w) (trace w ++ t)) /\
    requests t = [] /\
    Forall (fun e => e = Print MsgAlreadyDownloaded) (verdicts t) /\
    List.length (verdicts t) = List.length (all_images index).
Proof.
  intros Hup.
  assert (Hdevices : rests (fs w)
            (fun devices =>
               for_ devices (fun device =>
                 print (MsgDevice (Device.productname device) (Device.id device)) ;;;
                 for_ (Device.hardware device) (fun hardware =>
                   print (MsgHardware (Hardware.revision hardware)) ;;;
                   for_ (Hardware.releases hardware) (fun release =>
                     print (MsgRelease (Release.channel release) (Release.date release)
                              (Release.revision release)) ;;;
                     download_release self release (Device.productname device)))))
            (forallb (fun d =>
               forallb (fun h => forallb (release_up_to_date self w) (Hardware.releases h))
                       (Device.hardware d)))).
  { apply (for_rests (fs w) _
             (fun d => forallb (fun h => forallb (release_up_to_date self w)
                                           (Hardware.releases h)) (Device.hardware d))).
    apply (header_rests (fs w)
             (fun d => MsgDevice (Device.productname d) (Device.id d))
             (fun device =>
                for_ (Device.hardware device) (fun hardware =>
                  print (MsgHardware (Hardware.revision hardware)) ;;;
                  for_ (Hardware.releases hardware) (fun release =>
                    print (MsgRelease (Release.channel release) (Release.date release)
                             (Release.revision release)) ;;;
                    download_release self release (Device.productname device)))));
      [reflexivity|].
    intros device w1 Hok Hfs. revert w1 Hok Hfs.
    apply (for_rests (fs w)
             (fun hardware =>
                print (MsgHardware (Hardware.revision hardware)) ;;;
                for_ (Hardware.releases hardware) (fun release =>
                  print (MsgRelease (Release.channel release) (Release.date release)
                           (Release.revision release)) ;;;
                  download_release self release (Device.productname device)))
             (fun h => forallb (release_up_to_date self w) (Hardware.releases h))).
    apply (header_rests (fs w) (fun h => MsgHardware (Hardware.revision h))
             (fun hardware =>
                for_ (Hardware.releases hardware) (fun release =>
                  print (MsgRelease (Release.channel release) (Release.date release)
                           (Release.revision release)) ;;;
                  download_release self release (Device.productname device))));
      [reflexivity|].
    intros hardware w1 Hok Hfs. revert w1 Hok Hfs.
    apply (for_rests (fs w)
             (fun release =>
                print (MsgRelease (Release.channel release) (Release.date release)
                         (Release.revision release)) ;;;
                download_release self release (Device.productname device))
             (release_up_to_date self w)).
    apply (header_rests (fs w)
             (fun r => MsgRelease (Release.channel r) (Release.date r) (Release.revision r))
             (fun release => download_release self release (Device.productname device)));
      [reflexivity|].
    intros release w1 Hok Hfs. unfold download_release. revert w1 Hok Hfs.
    apply (for_rests (fs w) _ _ (download_image_rests self release w)). }
  destruct (Hdevices (FirmwareIndex.devices index)
              (mkWorld (fs w) (trace w ++ [Print (MsgStarting (FirmwareIndex.revision index))]))
              Hup eq_refl) as (t & Hrun & Hr & Hv).
  exists (Print (MsgStarting (FirmwareIndex.revision index)) :: t ++ [Print MsgCompleted]).
  assert (Hwhole : download_all self index w =
            (Ok tt, mkWorld (fs w)
                      (trace w ++ Print (MsgStarting (FirmwareIndex.revision index))
                       :: t ++ [Print MsgCompleted]))).
  { unfold download_all. unfold bind at 1. unfold print at 1, emit at 1.
    unfold bind at 1. rewrite Hrun. unfold print, emit. cbn [fs trace].
    rewrite <- !app_assoc. reflexivity. }
  assert (Hverdicts : verdicts (Print (MsgStarting (FirmwareIndex.revision index))
                                :: t ++ [Print MsgCompleted]) = verdicts t).
  { change (verdicts (Print (MsgStarting (FirmwareIndex.revision index))
                      :: t ++ [Print MsgCompleted]))
      with (verdicts (t ++ [Print MsgCompleted])).
    rewrite verdicts_app. apply app_nil_r. }
  split; [exact Hwhole|]. split; [|split].
  - change (requests (Print (MsgStarting (FirmwareIndex.revision index))
                      :: t ++ [Print MsgCompleted]))
      with (requests (t ++ [Print MsgCompleted])).
    rewrite requests_app, Hr. reflexivity.
  - rewrite Hverdicts. exact Hv.
  - destruct (download_all_treats self index w) as (t' & m' & Hrun' & _ & Hv' & _).
    rewrite Hwhole in Hrun'. injection Hrun' as _ Ht'. apply app_inv_head in Ht'.
    rewrite Ht', Hv'. apply length_destinations.
Qed.


End Env.

(** * The model at work: [int], and the theorems on the sample data *)

Example py_int_plain : py_int "1024" = Ok 1024%Z.
Proof. reflexivity. Qed.

Example py_int_spaces_sign : py_int "  -42 " = Ok (-42)%Z.
Proof. reflexivity. Qed.

Example py_int_underscore : py_int "1_000" = Ok 1000%Z.
Proof. reflexivity. Qed.

Example py_int_word : py_int "not-a-number" = Raise ValueError.
Proof. reflexivity. Qed.

Example py_int_empty : py_int "" = Raise ValueError.
Proof. reflexivity. Qed.

Example py_int_trailing_underscore : py_int "1_" = Raise ValueError.
Proof. reflexivity. Qed.

Example py_int_hex : py_int "0x10" = Raise ValueError.
Proof. reflexivity. Qed.

Example sample_document_parses :
  fmap (M := option) (fun index => List.length (all_images index))
       (match _parse_root sample_root with Ok index => Some index | Raise _ => None end)
  = Some 1%nat.
Proof. reflexivity. Qed.

Example sample_destination :
  construct_output_path sample_self sample_release sample_image = sample_path /\
  construct_url sample_release sample_image = sample_url.
Proof. split; reflexivity. Qed.

Example sample_digest : sample_hexdigest good_body = "ab000000000000000000000000000000".
Proof. reflexivity. Qed.




Lemma valid_file_is_skipped_witness :
  is_Some (fs (world_with good_body true) !! sample_path) /\
  lower (computed_digest sample_hexdigest (world_with good_body true) sample_path)
  = lower (Image.md5 sample_image) /\
  exists w',
    download_image sample_hexdigest unreachable_server sample_self sample_release
      sample_image (world_with good_body true) = (Ok tt, w') /\
    requests (trace w') = [] /\
    fs w' = fs (world_with good_body true).
Proof.
  assert (H1 : is_Some (fs (world_with good_body true)
                        !! construct_output_path sample_self sample_release sample_image))
    by (eexists; reflexivity).
  assert (H2 : lower (computed_digest sample_hexdigest (world_with good_body true)
                        (construct_output_path sample_self sample_release sample_image))
               = lower (Image.md5 sample_image)) by reflexivity.
  split; [exact H1|]. split; [exact H2|].
  destruct (valid_file_is_skipped sample_hexdigest unreachable_server sample_self
              sample_release sample_image (world_with good_body true) H1 H2)
    as (w' & t & Hrun & _ & Hreq & _ & _ & Hfs).
  exists w'. split; [exact Hrun|]. split; [exact Hreq | exact Hfs].
Defined.



Lemma parse_counts_and_order_witness :
  sample_fromstring sample_xml = Ok sample_root /\
  exists index,
    parse_from_string sample_fromstring sample_xml empty_world = (Ok index, empty_world) /\
    List.length (FirmwareIndex.devices index) = 1%nat /\
    List.length (all_images index) = 1%nat.
Proof.
  split; [reflexivity|].
  destruct (parse_counts_and_order sample_fromstring sample_root)
    as (index & _ & Hparse & _ & _ & _ & _ & Hd & _ & _ & Hi & _).
  exists index. split; [apply Hparse; reflexivity|].
  split; [rewrite Hd | rewrite Hi]; reflexivity.
Defined.




Lemma absolute_component_escapes_witness :
  any_absolute sample_release_absolute sample_image = true /\
  construct_output_path sample_self sample_release_absolute sample_image
  = "/tmp/2024-01-01/v2/fw.bin" /\
  String.prefix (base_directory sample_self)
    (construct_output_path sample_self sample_release_absolute sample_image) = false.
Proof.
  assert (H : any_absolute sample_release_absolute sample_image = true) by reflexivity.
  destruct (absolute_component_escapes sample_self sample_release_absolute sample_image H)
    as (_ & _ & Hprefix & _ & _ & _ & Hchannel).
  split; [exact H|]. split.
  - rewrite (Hchannel eq_refl). reflexivity.
  - apply Hprefix; [discriminate | reflexivity].
Defined.


(** * The properties beyond the claims on the sample data *)

Lemma unread_attribute_is_ignored_witness :
  reads image_attributes "filename" = false /\
  reads release_attributes "Channel" = false /\
  _parse_image (with_attribute "filename" "other.bin" sample_image_elem)
  = _parse_image sample_image_elem /\
  _parse_release (with_attribute "Channel" "beta" sample_release_elem)
  = _parse_release sample_release_elem.
Proof.
  destruct (unread_attribute_is_ignored "filename" "other.bin" sample_image_elem)
    as (Himage & _).
  destruct (unread_attribute_is_ignored "Channel" "beta" sample_release_elem)
    as (_ & Hrelease & _).
  split; [reflexivity|]. split; [reflexivity|].
  split; [apply Himage | apply Hrelease]; reflexivity.
Defined.

Lemma destination_directory_witness :
  keeps_level (base_directory sample_self) = true /\
  keeps_level (Release.channel sample_release) = true /\
  keeps_level (Release.date sample_release) = true /\
  keeps_level (Release.revision sample_release) = true /\
  startswith_sep (Release.channel sample_release) = false /\
  startswith_sep (Release.date sample_release) = false /\
  startswith_sep (Release.revision sample_release) = false /\
  contains_sep (Image.filename sample_image) = false /\
  os_path_dirname (construct_output_path sample_self sample_release sample_image)
  = "out/stable/2024-01-01/v2".
Proof.
  destruct (destination_directory sample_hexdigest good_server sample_self
              sample_release sample_image) as (_ & Hdir).
  do 8 (split; [reflexivity|]).
  rewrite (proj1 (Hdir eq_refl eq_refl eq_refl eq_refl eq_refl eq_refl eq_refl eq_refl)).
  reflexivity.
Defined.



Lemma satisfied_destination_is_not_fetched_again_witness :
  let w1 := snd (download_image sample_hexdigest good_server sample_self sample_release
                   sample_image empty_world) in
  download_image sample_hexdigest good_server sample_self sample_release sample_image
    empty_world = (Ok tt, w1) /\
  verdicts (trace w1) = [Print MsgMD5Passed] /\
  construct_output_path sample_self sample_release_mirror sample_image_lower_md5
  = construct_output_path sample_self sample_release sample_image /\
  lower (Image.md5 sample_image_lower_md5) = lower (Image.md5 sample_image) /\
  exists w2,
    download_image sample_hexdigest good_server sample_self sample_release_mirror
      sample_image_lower_md5 w1 = (Ok tt, w2) /\
    requests (trace w2) = requests (trace w1) /\
    fs w2 = fs w1.
Proof.
  intros w1.
  assert (H1 : download_image sample_hexdigest good_server sample_self sample_release
                 sample_image empty_world = (Ok tt, w1)) by reflexivity.
  assert (H2 : trace w1 = trace empty_world ++ trace w1) by reflexivity.
  assert (H3 : verdicts (trace w1) = [Print MsgMD5Passed]) by reflexivity.
  assert (H4 : construct_output_path sample_self sample_release_mirror
                 sample_image_lower_md5
               = construct_output_path sample_self sample_release sample_image)
    by reflexivity.
  assert (H5 : lower (Image.md5 sample_image_lower_md5) = lower (Image.md5 sample_image))
    by reflexivity.
  split; [exact H1|]. split; [exact H3|]. split; [exact H4|]. split; [exact H5|].
  destruct (satisfied_destination_is_not_fetched_again sample_hexdigest good_server
              sample_self sample_release sample_image sample_release_mirror
              sample_image_lower_md5 empty_world w1 (trace w1) H1 H2 (or_introl H3) H4 H5)
    as (w2 & t2 & Hrun & Htrace & Hreq & _ & Hfs).
  exists w2. split; [exact Hrun|]. split; [|exact Hfs].
  rewrite Htrace, requests_app, Hreq. apply app_nil_r.
Defined.

Lemma failed_image_is_fetched_again_witness :
  let w1 := snd (download_image sample_hexdigest corrupting_server sample_self
                   sample_release sample_image empty_world) in
  download_image sample_hexdigest corrupting_server sample_self sample_release
    sample_image empty_world = (Ok tt, w1) /\
  verdicts (trace w1) = [Print MsgMD5Failed] /\
  exists w2 t2,
    download_image sample_hexdigest corrupting_server sample_self sample_release
      sample_image w1 = (Ok tt, w2) /\
    trace w2 = trace w1 ++ t2 /\
    requests t2 = [sample_url] /\
    In (Remove sample_path) t2.
Proof.
  intros w1.
  assert (H1 : download_image sample_hexdigest corrupting_server sample_self
                 sample_release sample_image empty_world = (Ok tt, w1)) by reflexivity.
  assert (H2 : trace w1 = trace empty_world ++ trace w1) by reflexivity.
  assert (H3 : verdicts (trace w1) = [Print MsgMD5Failed]) by reflexivity.
  split; [exact H1|]. split; [exact H3|].
  destruct (failed_image_is_fetched_again sample_hexdigest corrupting_server sample_self
              sample_release sample_image empty_world w1 (trace w1) H1 H2 (or_introl H3))
    as (w2 & t2 & Hrun & Htrace & Hreq & Hremove).
  exists w2, t2. split; [exact Hrun|]. split; [exact Htrace|].
  split; [exact Hreq | exact (Hremove H3)].
Defined.


Lemma validate_md5_only_checks_witness :
  lower "ab000000000000000000000000000000" = lower "AB000000000000000000000000000000" /\
  fst (validate_md5 sample_hexdigest sample_path "ab000000000000000000000000000000"
         (world_with good_body true))
  = fst (validate_md5 sample_hexdigest sample_path "AB000000000000000000000000000000"
           (world_with good_body true)).
Proof.
  destruct (validate_md5_only_checks sample_hexdigest sample_path
              "AB000000000000000000000000000000" (world_with good_body true))
    as (t & _ & _ & Hcase).
  split; [reflexivity|]. apply Hcase. reflexivity.
Defined.


Lemma up_to_date_mirror_is_left_alone_witness :
  up_to_date sample_hexdigest sample_self sample_index (world_with good_body true) = true /\
  exists t,
    download_all sample_hexdigest unreachable_server sample_self sample_index
      (world_with good_body true)
    = (Ok tt, mkWorld (fs (world_with good_body true)) t) /\
    requests t = [].
Proof.
  assert (H : up_to_date sample_hexdigest sample_self sample_index
                (world_with good_body true) = true) by reflexivity.
  split; [exact H|].
  destruct (up_to_date_mirror_is_left_alone sample_hexdigest unreachable_server
              sample_self sample_index (world_with good_body true) H)
    as (t & Hrun & Hreq & _).
  exists t. split; [exact Hrun | exact Hreq].
Defined.


